(** * convert_wb_report: aggregation of a marketplace sales report

    Shallow embedding of [Задание1/convert_wb_report.py].

    Conventions of the embedding.
    - The quantity column is an int64 column: a quantity is an integer
      ([Z]), and the sum of a column wraps around modulo 2^64 as numpy's
      does.
    - The money columns are float64 columns: a value is a binary64 float,
      Rocq's primitive [float], so [nan], the infinities and the two zeros
      are values like any other.  Python's operators on floats ([+], [-],
      [*], [/], [<], [>]) are the IEEE 754 operations of [PrimFloat].
    - [Series.sum()], [Series.mean()] and [round(x, 2)] of a numpy float are
      routines of pandas and numpy, not of this program.  They are the three
      fields of a [library], and every statement about the program holds
      for whatever library it runs with.  [numpy] gives the routines as the
      installed libraries compute them on short columns; the samples run
      with it.
    - The text cells (article, document type, title, brand) are always
      present.
    - Exceptions are values of [exn]; a function that may raise returns
      [result]. *)

From Stdlib Require Import ZArith List String Ascii Bool.
From Stdlib Require Import Lia.
From Stdlib Require Import Permutation Sorted.
From Stdlib Require Uint63.
From Stdlib Require Import Floats.
Import ListNotations.

#[local] Set Warnings "-inexact-float".

(** ** Exceptions *)

Inductive exn : Type :=
| KeyError (label : string)
| IndexError
| ZeroDivisionError
| EOFError
| ReadError.

Inductive result (A : Type) : Type :=
| Ok (a : A)
| Raise (e : exn).
Arguments Ok {A} a.
Arguments Raise {A} e.

Definition bind {A B : Type} (m : result A) (k : A -> result B) : result B :=
  match m with
  | Ok a => k a
  | Raise e => Raise e
  end.

Notation "x <- m ;; k" := (bind m (fun x => k))
  (at level 61, m at next level, right associativity).

(** ** Numbers *)

(** *** int64 *)

(** The int64 that an integer wraps to. *)
Definition int64 (z : Z) : Z := ((z + 2 ^ 63) mod 2 ^ 64 - 2 ^ 63)%Z.

(** The sum of a list of integers, without bound. *)
Definition Zsum (l : list Z) : Z := fold_right Z.add 0%Z l.

(** [Series.sum()] of an int64 column.  Each addition of numpy wraps
    around; wrapping the exact sum once gives the same int64. *)
Definition sumZ (l : list Z) : Z := int64 (Zsum l).

(** The float an int64 becomes when it meets a float in an operation: the
    nearest binary64, ties to the even significand. *)
Definition float_of_int64 (z : Z) : float :=
  if (z =? - 2 ^ 63)%Z then (-9223372036854775808)%float
  else if (z <? 0)%Z then (- of_uint63 (Uint63.of_Z (- z)))%float
  else of_uint63 (Uint63.of_Z z).

(** *** float64 *)

(** The routines of pandas and numpy that the program calls on floats. *)
Record library : Type := {
  series_sum : list float -> float;    (* Series.sum() of a float64 column *)
  series_mean : list float -> float;   (* Series.mean() of a float64 column *)
  round2 : float -> float              (* round(x, 2) of a numpy float *)
}.

(** **** The routines as numpy computes them *)

Definition two52 : float := 4503599627370496%float.

(** C's [rint] in the default rounding mode: the nearest integer, ties to
    the even one, with the sign of the argument. *)
Definition rint (x : float) : float :=
  let a := abs x in
  let r := if (a <? two52)%float then (a + two52 - two52)%float else a in
  if get_sign x then (- r)%float else r.

(** numpy's [round(x, 2)]: times 100, to the nearest integer, divided by
    100. *)
Definition numpy_round2 (x : float) : float := (rint (x * 100) / 100)%float.

(** numpy's sum of an array of floats ([np.add.reduce], which adds
    pairwise).  Fewer than eight values are added from left to right; up to
    128 values are added in eight running sums, which are then added two
    by two, and the values left over after the last full block of eight are
    added one by one; a longer array is split in two near the middle, at a
    multiple of eight. *)
Definition add_all (s : float) (l : list float) : float :=
  fold_left (fun s x => (s + x)%float) l s.

Fixpoint running_sums (r l : list float) (blocks : nat)
    : list float * list float :=
  match blocks with
  | O => (r, l)
  | S k =>
      running_sums
        (map (fun p => (fst p + snd p)%float) (combine r (firstn 8 l)))
        (skipn 8 l) k
  end.

Definition block_sum (l : list float) : float :=
  match running_sums (firstn 8 l) (skipn 8 l) (List.length l / 8 - 1) with
  | ([r0; r1; r2; r3; r4; r5; r6; r7], rest) =>
      add_all (r0 + r1 + (r2 + r3) + (r4 + r5 + (r6 + r7)))%float rest
  | _ => nan
  end.

(** [fuel] bounds the depth of the splitting; the length of the array is
    enough. *)
Fixpoint pairwise_sum (fuel : nat) (l : list float) : float :=
  let n := List.length l in
  if (n <? 8)%nat then add_all 0%float l
  else if (n <=? 128)%nat then block_sum l
  else
    match fuel with
    | O => nan
    | S fuel' =>
        let n2 := (n / 2 - (n / 2) mod 8)%nat in
        (pairwise_sum fuel' (firstn n2 l)
         + pairwise_sum fuel' (skipn n2 l))%float
    end.

(** pandas' [sum] skips missing values: they count as 0.0; the reduction
    starts from 0.0. *)
Definition nansum (l : list float) : float :=
  let values := map (fun x => if is_nan x then 0%float else x) l in
  (0 + pairwise_sum (List.length values) values)%float.

(** pandas' [mean]: the sum over the number of values that are not
    missing. *)
Definition nanmean (l : list float) : float :=
  let count := List.length (filter (fun x => negb (is_nan x)) l) in
  (nansum l / float_of_int64 (Z.of_nat count))%float.

(** The library as pandas and numpy compute it.  (The sign of a sum that
    is zero is not followed.) *)
Definition numpy : library :=
  {| series_sum := nansum; series_mean := nanmean; round2 := numpy_round2 |}.

(** ** Settings *)

Definition COST_PERCENTAGE : float := 0.6%float.

(** ** The input table *)

Record transaction : Type := {
  tx_article : string;      (* 'Артикул поставщика' *)
  tx_doc_type : string;     (* 'Тип документа' *)
  tx_qty : Z;               (* 'Кол-во' *)
  tx_price : float;         (* 'Цена розничная' *)
  tx_delivery : float;      (* 'Услуги по доставке товара покупателю' *)
  tx_penalty : float;       (* 'Общая сумма штрафов' *)
  tx_remittance : float;    (* 'К перечислению Продавцу за реализованный Товар' *)
  tx_title : string;        (* 'Название' *)
  tx_brand : string         (* 'Бренд', read only when the column exists *)
}.

Record table : Type := {
  has_brand : bool;         (* 'Бренд' in df.columns *)
  rows : list transaction
}.

Definition SALE : string := "Продажа"%string.
Definition RETURN : string := "Возврат"%string.

(** [df[col].unique()]: the distinct values, in order of first appearance. *)
Fixpoint unique (l : list string) : list string :=
  match l with
  | [] => []
  | x :: xs => x :: filter (fun y => negb (String.eqb y x)) (unique xs)
  end.

(** [d[d[col] == v]] *)
Definition select (col : transaction -> string) (v : string)
    (d : list transaction) : list transaction :=
  filter (fun r => String.eqb (col r) v) d.

(** [series.iloc[0]] *)
Definition iloc0 {A : Type} (series : list A) : result A :=
  match series with
  | [] => Raise IndexError
  | x :: _ => Ok x
  end.

Fixpoint for_each {A B : Type} (body : A -> result B) (l : list A)
    : result (list B) :=
  match l with
  | [] => Ok []
  | x :: xs => y <- body x ;; ys <- for_each body xs ;; Ok (y :: ys)
  end.

(** ** The summary frame *)

(** One entry of [summary]: the dict appended for an article. *)
Record summary_row : Type := {
  article : string;         (* 'Артикул' *)
  brand : string;           (* 'Бренд' *)
  title : string;           (* 'Название товара' *)
  units_sold : Z;           (* 'Продано (шт)' *)
  units_returned : Z;       (* 'Возвращено (шт)' *)
  avg_sale_price : float;   (* 'Средняя цена продажи' *)
  unit_cost : float;        (* 'Себестоимость единицы' *)
  total_cost : float;       (* 'Общая себестоимость' *)
  logistics_cost : float;   (* 'Логистика' *)
  penalties : float;        (* 'Штрафы' *)
  total_expenses : float;   (* 'Общие расходы' *)
  revenue : float;          (* 'Выручка' *)
  net_profit : float;       (* 'Чистая прибыль' *)
  margin_percent : float    (* 'Рентабельность, %' *)
}.

Inductive label : Type :=
| Article | Brand | Title | UnitsSold | UnitsReturned | AvgSalePrice | UnitCost
| TotalCost | Logistics | Penalties | TotalExpenses | Revenue | NetProfit
| Margin.

Definition label_name (c : label) : string :=
  match c with
  | Article => "Артикул"
  | Brand => "Бренд"
  | Title => "Название товара"
  | UnitsSold => "Продано (шт)"
  | UnitsReturned => "Возвращено (шт)"
  | AvgSalePrice => "Средняя цена продажи"
  | UnitCost => "Себестоимость единицы"
  | TotalCost => "Общая себестоимость"
  | Logistics => "Логистика"
  | Penalties => "Штрафы"
  | TotalExpenses => "Общие расходы"
  | Revenue => "Выручка"
  | NetProfit => "Чистая прибыль"
  | Margin => "Рентабельность, %"
  end%string.

Definition label_eqb (a b : label) : bool :=
  String.eqb (label_name a) (label_name b).

Definition report_columns : list label :=
  [Article; Brand; Title; UnitsSold; UnitsReturned; AvgSalePrice; UnitCost;
   TotalCost; Logistics; Penalties; TotalExpenses; Revenue; NetProfit; Margin].

Definition SORT_BY : label := UnitsSold.
Definition SORT_ASCENDING : bool := false.

(** A frame built from a list of dicts: the columns are the keys of the
    dicts, so a frame built from the empty list has no column at all. *)
Record DataFrame : Type := {
  columns : list label;
  records : list summary_row
}.

Definition DataFrame_of (data : list summary_row) : DataFrame :=
  {| columns := match data with [] => [] | _ :: _ => report_columns end;
     records := data |}.

Definition has_column (df : DataFrame) (c : label) : bool :=
  existsb (label_eqb c) (columns df).

(** [df[c]], read through the field [f] that holds column [c]. *)
Definition column {A : Type} (df : DataFrame) (c : label)
    (f : summary_row -> A) : result (list A) :=
  if has_column df c then Ok (map f (records df))
  else Raise (KeyError (label_name c)).

(** The value a row holds in a column, as the sort sees it. *)
Inductive cell : Type :=
| CInt (z : Z)
| CNum (x : float)
| CStr (s : string).

Definition cell_of (c : label) (r : summary_row) : cell :=
  match c with
  | Article => CStr (article r)
  | Brand => CStr (brand r)
  | Title => CStr (title r)
  | UnitsSold => CInt (units_sold r)
  | UnitsReturned => CInt (units_returned r)
  | AvgSalePrice => CNum (avg_sale_price r)
  | UnitCost => CNum (unit_cost r)
  | TotalCost => CNum (total_cost r)
  | Logistics => CNum (logistics_cost r)
  | Penalties => CNum (penalties r)
  | TotalExpenses => CNum (total_expenses r)
  | Revenue => CNum (revenue r)
  | NetProfit => CNum (net_profit r)
  | Margin => CNum (margin_percent r)
  end.

Definition cell_leb (a b : cell) : bool :=
  match a, b with
  | CInt x, CInt y => (x <=? y)%Z
  | CNum x, CNum y => (x <=? y)%float
  | CStr x, CStr y => String.leb x y
  | _, _ => false
  end.

(** [a] may stand before [b] in a frame sorted by column [by_]. *)
Definition in_order (by_ : label) (ascending : bool) (a b : summary_row) : bool :=
  if ascending then cell_leb (cell_of by_ a) (cell_of by_ b)
  else cell_leb (cell_of by_ b) (cell_of by_ a).

(** [df.sort_values(by, ascending=ascending)].  The call leaves [kind] at
    pandas' default, ['quicksort'], whose code is numpy's and not this
    program's: the result is some arrangement of the rows that is ordered
    by the column, and the relation says no more.  It holds of the frame
    pandas returns, so what is proved of every outcome is proved of that
    frame; which arrangement pandas picks among rows of equal key is not
    modelled.  An unknown column raises [KeyError]. *)
Inductive sort_values (by_ : label) (ascending : bool) (df : DataFrame)
    : result DataFrame -> Prop :=
| sort_values_sorted (l : list summary_row) :
    has_column df by_ = true ->
    Permutation (records df) l ->
    StronglySorted (fun a b => in_order by_ ascending a b = true) l ->
    sort_values by_ ascending df (Ok {| columns := columns df; records := l |})
| sort_values_KeyError :
    has_column df by_ = false ->
    sort_values by_ ascending df (Raise (KeyError (label_name by_))).

(** The total row. *)
Record total_row : Type := {
  t_article : string;
  t_brand : string;
  t_title : string;
  t_units_sold : Z;
  t_units_returned : Z;
  t_avg_sale_price : string;
  t_unit_cost : string;
  t_total_cost : float;
  t_logistics_cost : float;
  t_penalties : float;
  t_total_expenses : float;
  t_revenue : float;
  t_net_profit : float;
  t_margin_percent : float
}.

(** A row of the frame that [add_total_row] returns. *)
Inductive report_row : Type :=
| Data (r : summary_row)
| Total (t : total_row).

(** ** The aggregator and the totalizer *)

Section Aggregation.

Variable L : library.

(** The local variables of the loop body of [process_report], before any
    rounding.  Without Sale rows [avg_price] is the int [0] and
    [cost_price] the product [0 * 0.6], the float [0.0]. *)
Record aggregates : Type := {
  sales_count : nat;        (* len(sales_data) *)
  qty_sold : Z;
  qty_returned : Z;
  avg_price : float;
  cost_price : float;
  raw_total_cost : float;
  raw_logistics_cost : float;
  raw_penalties : float;
  raw_total_expenses : float;
  raw_revenue : float;
  raw_net_profit : float
}.

Definition aggregate (article_data : list transaction) : aggregates :=
  let sales_data := select tx_doc_type SALE article_data in
  let qty_sold := sumZ (map tx_qty sales_data) in
  let returns_data := select tx_doc_type RETURN article_data in
  let qty_returned := sumZ (map tx_qty returns_data) in
  let avg_price :=
    if (0 <? List.length sales_data)%nat
    then series_mean L (map tx_price sales_data) else 0%float in
  let cost_price := (avg_price * COST_PERCENTAGE)%float in
  let total_cost := (cost_price * float_of_int64 qty_sold)%float in
  let logistics_cost := series_sum L (map tx_delivery article_data) in
  let penalties := series_sum L (map tx_penalty article_data) in
  let total_expenses := (total_cost + logistics_cost + penalties)%float in
  let revenue := series_sum L (map tx_remittance article_data) in
  let net_profit := (revenue - total_expenses)%float in
  {| sales_count := List.length sales_data;
     qty_sold := qty_sold;
     qty_returned := qty_returned;
     avg_price := avg_price;
     cost_price := cost_price;
     raw_total_cost := total_cost;
     raw_logistics_cost := logistics_cost;
     raw_penalties := penalties;
     raw_total_expenses := total_expenses;
     raw_revenue := revenue;
     raw_net_profit := net_profit |}.

(** [round((net_profit / revenue * 100) if revenue > 0 else 0, 2)]; the
    [0] of the second branch is an int, which [round] returns as it is. *)
Definition margin (net_profit revenue : float) : float :=
  if (0 <? revenue)%float then round2 L (net_profit / revenue * 100)%float
  else 0%float.

(** The dict appended for an article.  [round(avg_price, 2)] and
    [round(cost_price, 2)] are numpy's rounding when the article has a Sale
    row; without one they round the int [0] and the Python float [0.0],
    which Python's own [round] leaves at zero. *)
Definition entry (article brand product_name : string) (m : aggregates)
    : summary_row :=
  let sold_any := (0 <? sales_count m)%nat in
  {| article := article;
     brand := brand;
     title := product_name;
     units_sold := qty_sold m;
     units_returned := qty_returned m;
     avg_sale_price := if sold_any then round2 L (avg_price m) else 0%float;
     unit_cost := if sold_any then round2 L (cost_price m) else 0%float;
     total_cost := round2 L (raw_total_cost m);
     logistics_cost := round2 L (raw_logistics_cost m);
     penalties := round2 L (raw_penalties m);
     total_expenses := round2 L (raw_total_expenses m);
     revenue := round2 L (raw_revenue m);
     net_profit := round2 L (raw_net_profit m);
     margin_percent := margin (raw_net_profit m) (raw_revenue m) |}.

(** The body of the [for article in ...] loop. *)
Definition summarize (df : table) (article : string) : result summary_row :=
  let article_data := select tx_article article (rows df) in
  let m := aggregate article_data in
  product_name <- iloc0 (map tx_title article_data) ;;
  brand <- (if has_brand df then iloc0 (map tx_brand article_data)
            else Ok EmptyString) ;;
  Ok (entry article brand product_name m).

(** The list [summary] when the loop ends. *)
Definition summary (df : table) : result (list summary_row) :=
  for_each (summarize df) (unique (map tx_article (rows df))).

(** [process_report(df)]: the loop, then the frame and its sort
    ([reset_index] renumbers the rows, which a list does by itself). *)
Inductive process_report (df : table) : result DataFrame -> Prop :=
| process_report_loop_raises (e : exn) :
    summary df = Raise e ->
    process_report df (Raise e)
| process_report_sort (data : list summary_row) (res : result DataFrame) :
    summary df = Ok data ->
    sort_values SORT_BY SORT_ASCENDING (DataFrame_of data) res ->
    process_report df res.

(** [df['Чистая прибыль'].sum() / df['Выручка'].sum()].  The columns of a
    frame with a record are float64 columns: their sums are numpy floats,
    and the division gives [inf] or [nan] on a zero divisor.  The columns of
    a frame without records have dtype object and sum to the int [0]: the
    division is Python's [0 / 0], which raises. *)
Definition total_ratio (df : DataFrame) (profit income : list float)
    : result float :=
  match records df with
  | [] => Raise ZeroDivisionError
  | _ :: _ => Ok (series_sum L profit / series_sum L income)%float
  end.

Definition add_total_row (df : DataFrame) : result (list report_row) :=
  sold <- column df UnitsSold units_sold ;;
  returned <- column df UnitsReturned units_returned ;;
  cost <- column df TotalCost total_cost ;;
  logistics <- column df Logistics logistics_cost ;;
  fines <- column df Penalties penalties ;;
  expenses <- column df TotalExpenses total_expenses ;;
  income <- column df Revenue revenue ;;
  profit <- column df NetProfit net_profit ;;
  profit' <- column df NetProfit net_profit ;;
  income' <- column df Revenue revenue ;;
  ratio <- total_ratio df profit' income' ;;
  let total_row :=
    {| t_article := "ИТОГО:";
       t_brand := EmptyString;
       t_title := EmptyString;
       t_units_sold := sumZ sold;
       t_units_returned := sumZ returned;
       t_avg_sale_price := EmptyString;
       t_unit_cost := EmptyString;
       t_total_cost := round2 L (series_sum L cost);
       t_logistics_cost := round2 L (series_sum L logistics);
       t_penalties := round2 L (series_sum L fines);
       t_total_expenses := round2 L (series_sum L expenses);
       t_revenue := round2 L (series_sum L income);
       t_net_profit := round2 L (series_sum L profit);
       t_margin_percent := round2 L (ratio * 100)%float |} in
  Ok (map Data (records df) ++ [Total total_row]).

(** The dict [total_row] that [add_total_row] builds from a frame with a
    record. *)
Definition total_of (df : DataFrame) : total_row :=
  let sum_of f := series_sum L (map f (records df)) in
  {| t_article := "ИТОГО:";
     t_brand := EmptyString;
     t_title := EmptyString;
     t_units_sold := sumZ (map units_sold (records df));
     t_units_returned := sumZ (map units_returned (records df));
     t_avg_sale_price := EmptyString;
     t_unit_cost := EmptyString;
     t_total_cost := round2 L (sum_of total_cost);
     t_logistics_cost := round2 L (sum_of logistics_cost);
     t_penalties := round2 L (sum_of penalties);
     t_total_expenses := round2 L (sum_of total_expenses);
     t_revenue := round2 L (sum_of revenue);
     t_net_profit := round2 L (sum_of net_profit);
     t_margin_percent :=
       round2 L (sum_of net_profit / sum_of revenue * 100)%float |}.

(** The mean of the retail price over the given sale rows, 0 without any:
    the variable [avg_price]. *)
Definition mean_sale_price (sales : list transaction) : float :=
  match sales with
  | [] => 0%float
  | _ :: _ => series_mean L (map tx_price sales)
  end.

End Aggregation.


(** ** Files, console and the entry point *)

Inductive file : Type :=
| Spreadsheet (t : table)            (* a workbook with the transaction columns *)
| ReportBook (r : list report_row)   (* a workbook written by this program *)
| OtherFile.

(** A line given to [safe_print]; the number formats of the f-strings are
    not spelled out, the line carries the value that is formatted. *)
Inductive msg : Type :=
| Text (s : string)
| TextPath (s : string) (path : string)
| TextInt (s : string) (n : Z) (unit : string)
| TextOf (s : string) (k n : Z) (unit : string)
| TextMoney (s : string) (x : float)
| TextPercent (s : string) (x : float)
| TextError (s : string) (e : exn)
| Traceback (e : exn).

Record world : Type := {
  fs : string -> option file;   (* the files that exist, by path *)
  console : list msg;           (* what has been printed *)
  stdin : list string;          (* the lines still to be read *)
  today : string                (* datetime.now().strftime('%d.%m.%Y') *)
}.

Definition io (A : Type) : Type := world -> world * result A.

Definition io_ret {A : Type} (a : A) : io A := fun w => (w, Ok a).

Definition io_raise {A : Type} (e : exn) : io A := fun w => (w, Raise e).

Definition io_bind {A B : Type} (m : io A) (k : A -> io B) : io B :=
  fun w =>
    match m w with
    | (w', Ok a) => k a w'
    | (w', Raise e) => (w', Raise e)
    end.

Notation "m >>= k" := (io_bind m k) (at level 58, left associativity).
Notation "m >> k" := (io_bind m (fun _ => k)) (at level 58, left associativity).

(** The world after some lines went to the console. *)
Definition print_to (w : world) (lines : list msg) : world :=
  {| fs := fs w; console := console w ++ lines; stdin := stdin w;
     today := today w |}.

Definition safe_print (text : msg) : io unit :=
  fun w => (print_to w [text], Ok tt).

Fixpoint print_all (lines : list msg) : io unit :=
  match lines with
  | [] => io_ret tt
  | m :: ms => safe_print m >> print_all ms
  end.

(** [wb.save(path)] *)
Definition save (path : string) (f : file) : io unit :=
  fun w =>
    ({| fs := fun p => if String.eqb p path then Some f else fs w p;
        console := console w; stdin := stdin w; today := today w |}, Ok tt).

(** [input()] *)
Definition input : io string :=
  fun w =>
    match stdin w with
    | [] => (w, Raise EOFError)
    | line :: rest =>
        ({| fs := fs w; console := console w; stdin := rest;
            today := today w |}, Ok line)
    end.

(** What [pd.read_excel] finds in a workbook. *)
Inductive sheet : Type :=
| Transactions (t : table)
| Foreign (n : nat).     (* [n] rows, none of the transaction columns *)

(** [pd.read_excel(path)]; the first row of a sheet is taken as its header. *)
Definition read_excel (path : string) : io sheet :=
  fun w =>
    match fs w path with
    | Some (Spreadsheet t) => (w, Ok (Transactions t))
    | Some (ReportBook r) => (w, Ok (Foreign (2 + List.length r)))
    | Some OtherFile | None => (w, Raise ReadError)
    end.

Definition lift {A : Type} (r : result A) : io A := fun w => (w, r).

(** *** Strings and paths *)

Definition nl : string := String (ascii_of_nat 10) EmptyString.
Definition rule : string :=
  "======================================================================".

(** The white space of [str.strip()], among the ASCII characters. *)
Definition is_space (c : ascii) : bool :=
  let n := nat_of_ascii c in
  ((9 <=? n) && (n <=? 13) || (28 <=? n) && (n <=? 32))%nat.

Definition is_quote (c : ascii) : bool :=
  let n := nat_of_ascii c in ((n =? 34) || (n =? 39))%nat.

Fixpoint lstrip (p : ascii -> bool) (s : list ascii) : list ascii :=
  match s with
  | [] => []
  | c :: s' => if p c then lstrip p s' else s
  end.

(** [s.strip(chars)] *)
Definition strip (p : ascii -> bool) (s : string) : string :=
  string_of_list_ascii
    (rev (lstrip p (rev (lstrip p (list_ascii_of_string s))))).

(** [s.rfind(c)]: what stands before and after the last [c]. *)
Fixpoint rsplit (c : ascii) (s : list ascii)
    : option (list ascii * list ascii) :=
  match s with
  | [] => None
  | x :: s' =>
      match rsplit c s' with
      | Some (before, after) => Some (x :: before, after)
      | None => if Ascii.eqb x c then Some ([], s') else None
      end
  end.

Definition slash : ascii := ascii_of_nat 47.
Definition dot : ascii := ascii_of_nat 46.

(** [path.stem] of a file name. *)
Definition stem (name : list ascii) : list ascii :=
  match rsplit dot name with
  | Some (before, after) =>
      match before, after with
      | _ :: _, _ :: _ => before
      | _, _ => name
      end
  | None => name
  end.

(** [input_path.parent / f"Сводный_отчет_{input_path.stem}_{date}.xlsx"],
    for a path that [Path] leaves as it is written. *)
Definition output_path_of (input_path date : string) : string :=
  let report name :=
    ("Сводный_отчет_" ++ string_of_list_ascii (stem name) ++ "_" ++ date
       ++ ".xlsx")%string in
  match rsplit slash (list_ascii_of_string input_path) with
  | None => report (list_ascii_of_string input_path)
  | Some ([], name) => ("/" ++ report name)%string
  | Some (parent, name) =>
      (string_of_list_ascii parent ++ "/" ++ report name)%string
  end.

(** *** The stages, with what they print *)

Definition count {A : Type} (l : list A) : Z := Z.of_nat (List.length l).

Definition load_report (file_path : string) : io table :=
  safe_print (TextPath "[>] Загрузка файла: " file_path) >>
  read_excel file_path >>= fun df =>
  match df with
  | Transactions t =>
      safe_print (TextInt "[+] Загружено строк: " (count (rows t)) "") >>
      safe_print (TextInt "[+] Уникальных артикулов: "
                    (count (unique (map tx_article (rows t)))) "") >>
      io_ret t
  | Foreign n =>
      safe_print (TextInt "[+] Загружено строк: " (Z.of_nat n) "") >>
      io_raise (KeyError "Артикул поставщика")
  end.

(** The lines [process_report] prints; all of them precede the sort. *)
Definition process_report_prints (df : table) : list msg :=
  let total_articles := List.length (unique (map tx_article (rows df))) in
  [Text (nl ++ "[>] Обработка данных...")]
  ++ flat_map
       (fun processed =>
          if (processed mod 50 =? 0)%nat
          then [TextOf "    Обработано: " (Z.of_nat processed)
                  (Z.of_nat total_articles) " артикулов"]
          else [])
       (seq 1 total_articles)
  ++ [TextOf "[+] Обработано артикулов: " (Z.of_nat total_articles)
        (Z.of_nat total_articles) ""].

(** The styling of the sheet is modelled apart, by [sheet_rows]: the file
    holds the rows. *)
Definition create_formatted_excel (df : list report_row) (output_path : string)
    : io unit :=
  safe_print (Text (nl ++ "[>] Создание Excel файла...")) >>
  save output_path (ReportBook df) >>
  safe_print (TextPath "[+] Файл сохранен: " output_path).

(** Reading a row of the final frame by column. *)
Definition row_int (f : summary_row -> Z) (g : total_row -> Z)
    (r : report_row) : Z :=
  match r with Data d => f d | Total t => g t end.

Definition row_money (f : summary_row -> float) (g : total_row -> float)
    (r : report_row) : float :=
  match r with Data d => f d | Total t => g t end.

Definition row_margin (r : report_row) : float :=
  row_money margin_percent t_margin_percent r.

(** [df.iloc[-1]] *)
Definition iloc_last {A : Type} (df : list A) : result A :=
  match rev df with
  | [] => Raise IndexError
  | x :: _ => Ok x
  end.

(** [returned / sold * 100] of two numpy int64: true division, on the
    floats of the two integers. *)
Definition return_rate (returned sold : Z) : float :=
  (float_of_int64 returned / float_of_int64 sold * 100)%float.

Definition print_summary (df : list report_row) : io unit :=
  lift (iloc_last df) >>= fun total_row =>
  let sold := row_int units_sold t_units_sold total_row in
  let returned := row_int units_returned t_units_returned total_row in
  print_all
    [ Text (nl ++ rule);
      Text ">>> СТАТИСТИКА";
      Text rule;
      TextInt "Артикулов обработано:    " (count df - 1) "";
      TextInt "Всего продано:           " sold " шт";
      TextInt "Всего возвращено:        " returned " шт";
      TextPercent "Процент возвратов:       " (return_rate returned sold);
      Text EmptyString;
      TextMoney "Общая себестоимость:     "
        (row_money total_cost t_total_cost total_row);
      TextMoney "Логистика:               "
        (row_money logistics_cost t_logistics_cost total_row);
      TextMoney "Штрафы:                  "
        (row_money penalties t_penalties total_row);
      TextMoney "Общие расходы:           "
        (row_money total_expenses t_total_expenses total_row);
      Text EmptyString;
      TextMoney "Выручка:                 "
        (row_money revenue t_revenue total_row);
      TextMoney "Чистая прибыль:          "
        (row_money net_profit t_net_profit total_row);
      TextPercent "Рентабельность:          " (row_margin total_row);
      Text rule ].

(** *** main *)

Definition banner : io unit :=
  print_all
    [ Text (nl ++ rule);
      Text ">>> ПРЕОБРАЗОВАНИЕ ОТЧЕТА WILDBERRIES";
      Text (rule ++ nl) ].

(** [sys.argv[1]], or the line typed at the prompt. *)
Definition get_input_file (argv : list string) : io string :=
  match argv with
  | _ :: input_file :: _ => io_ret input_file
  | _ =>
      safe_print (Text "Введите путь к файлу Excel:") >>
      input >>= fun line =>
      io_ret (strip is_quote (strip is_space line))
  end.

(** [input_path.exists()] *)
Definition path_exists (input_path : string) (w : world) : bool :=
  match fs w input_path with
  | Some _ => true
  | None => false
  end.

(** [except Exception as e: ...] *)
Definition handler (r : result unit) : io unit :=
  match r with
  | Ok tt => io_ret tt
  | Raise e =>
      safe_print (TextError (nl ++ "[!] Ошибка при обработке: ") e) >>
      safe_print (Traceback e)
  end.

Section Main.

Variable L : library.

(** What follows [process_report] inside the [try]. *)
Definition finish (summary_df : DataFrame) (output_path : string) : io unit :=
  lift (add_total_row L summary_df) >>= fun summary_df_with_total =>
  create_formatted_excel summary_df_with_total output_path >>
  print_summary summary_df_with_total >>
  safe_print (Text (nl ++ "[+] ГОТОВО! Файл сохранен в:")) >>
  safe_print (TextPath "    " output_path).

(** The body of the [try]: the world it leaves, and whether it raised. *)
Inductive try_body (input_path output_path : string) (w : world)
    : world -> result unit -> Prop :=
| try_load_raises (w1 : world) (e : exn) :
    load_report input_path w = (w1, Raise e) ->
    try_body input_path output_path w w1 (Raise e)
| try_process_raises (w1 w2 : world) (df : table) (e : exn) :
    load_report input_path w = (w1, Ok df) ->
    print_all (process_report_prints df) w1 = (w2, Ok tt) ->
    process_report L df (Raise e) ->
    try_body input_path output_path w w2 (Raise e)
| try_finish (w1 w2 w3 : world) (df : table) (summary_df : DataFrame)
    (r : result unit) :
    load_report input_path w = (w1, Ok df) ->
    print_all (process_report_prints df) w1 = (w2, Ok tt) ->
    process_report L df (Ok summary_df) ->
    finish summary_df output_path w2 = (w3, r) ->
    try_body input_path output_path w w3 r.

(** [main()], started with [sys.argv = argv] in world [w]: the world it
    leaves and [Ok tt] for a normal return, [Raise e] for an exception that
    leaves [main]. *)
Inductive main (argv : list string) (w : world)
    : world -> result unit -> Prop :=
| main_no_input (w1 : world) (e : exn) :
    (banner >> get_input_file argv) w = (w1, Raise e) ->
    main argv w w1 (Raise e)
| main_not_found (w1 w2 : world) (input_file : string) :
    (banner >> get_input_file argv) w = (w1, Ok input_file) ->
    path_exists input_file w1 = false ->
    safe_print (TextPath "[!] Ошибка: Файл не найден: " input_file) w1
      = (w2, Ok tt) ->
    main argv w w2 (Ok tt)
| main_process (w1 w2 w3 : world) (input_file : string) (r r' : result unit) :
    (banner >> get_input_file argv) w = (w1, Ok input_file) ->
    path_exists input_file w1 = true ->
    try_body input_file (output_path_of input_file (today w1)) w1 w2 r ->
    handler r w2 = (w3, r') ->
    main argv w w3 r'.

End Main.

(** ** A reference sort *)



(** ** Notions used in the statements *)

(** A list of rows ordered by a column, in a direction. *)
Definition sorted_by (by_ : label) (ascending : bool)
    (l : list summary_row) : Prop :=
  StronglySorted (fun a b => in_order by_ ascending a b = true) l.

(** [round(x, 2)] of a variable of the loop that is a numpy float when the
    article has Sale rows, and a zero of Python without them. *)
Definition rounded_if_sold (L : library) (sales : list transaction)
    (x : float) : float :=
  match sales with
  | [] => 0%float
  | _ :: _ => round2 L x
  end.

(** The money columns that [add_total_row] sums, each with the cell of the
    total row that holds its sum. *)
Definition money_totals
    : list ((summary_row -> float) * (total_row -> float)) :=
  [ (total_cost, t_total_cost); (logistics_cost, t_logistics_cost);
    (penalties, t_penalties); (total_expenses, t_total_expenses);
    (revenue, t_revenue); (net_profit, t_net_profit) ].

(** The money a record stores is left as it is by another rounding. *)
Definition money_is_rounded (L : library) (r : summary_row) : Prop :=
  round2 L (total_cost r) = total_cost r
  /\ round2 L (logistics_cost r) = logistics_cost r
  /\ round2 L (penalties r) = penalties r
  /\ round2 L (total_expenses r) = total_expenses r
  /\ round2 L (revenue r) = revenue r
  /\ round2 L (net_profit r) = net_profit r.

(** ** Amounts of whole cents *)

(** The float of a count, counted up from zero (exact below 2^53), and the
    float nearest to an amount of that many cents. *)
Fixpoint whole (k : nat) : float :=
  match k with
  | O => 0%float
  | S k' => (whole k' + 1)%float
  end.

Definition cents (k : nat) : float := (whole k / 100)%float.

(** [holds_along test n a b s] tests the triples [(a, b, s)],
    [(a, b + 1, s + 1)], ... , [n] of them; [holds_across test m n a] does
    so from [(a, 0, a)], from [(a + 1, 0, a + 1)], ... , [m] times. *)
Fixpoint holds_along (test : float -> float -> float -> bool) (n : nat)
    (a b s : float) : bool :=
  match n with
  | O => true
  | S n' => test a b s && holds_along test n' a (b + 1)%float (s + 1)%float
  end.

Fixpoint holds_across (test : float -> float -> float -> bool) (m n : nat)
    (a : float) : bool :=
  match m with
  | O => true
  | S m' =>
      holds_along test n a 0%float a
      && holds_across test m' n (a + 1)%float
  end.

(** Rounding an amount of [b] cents gives it back. *)
Definition kept (_ b _ : float) : bool :=
  PrimFloat.Leibniz.eqb (round2 numpy (b / 100)%float) (b / 100)%float.

(** Rounding the sum of a column of [a] cents and [b] cents gives the
    amount of [s] cents. *)
Definition repaired (a b s : float) : bool :=
  PrimFloat.Leibniz.eqb
    (round2 numpy (series_sum numpy [a / 100; b / 100]%float))
    (s / 100)%float.

(** ** The fallback of [safe_print] *)

Definition is_ascii (c : ascii) : bool := (nat_of_ascii c <? 128)%nat.

(** [text.encode('ascii', errors='ignore').decode('ascii')]; a string is
    the UTF-8 bytes of the text, and the bytes below 128 are its ASCII
    characters. *)
Definition ascii_text (text : string) : string :=
  string_of_list_ascii (filter is_ascii (list_ascii_of_string text)).

(** What [safe_print(text)] writes on a console that can encode the strings
    accepted by [encodes]: the text, or its ASCII characters when [print]
    raised [UnicodeEncodeError]; [None] when the second [print] raises
    too. *)
Definition safe_print_output (encodes : string -> bool) (text : string)
    : option string :=
  if encodes text then Some text
  else if encodes (ascii_text text) then Some (ascii_text text)
  else None.

(** A console that encodes ASCII and nothing else. *)
Definition ascii_console (text : string) : bool :=
  forallb is_ascii (list_ascii_of_string text).

(** ** The columns [add_total_row] reads *)


(** ** The sheet that [create_formatted_excel] fills *)

(** The value written into a cell. *)
Inductive value : Type :=
| VText (s : string)
| VInt (z : Z)
| VFloat (x : float).

(** [df.values]: the values of a row, in the order of the columns. *)
Definition row_values (r : report_row) : list value :=
  match r with
  | Data d =>
      [ VText (article d); VText (brand d); VText (title d);
        VInt (units_sold d); VInt (units_returned d);
        VFloat (avg_sale_price d); VFloat (unit_cost d);
        VFloat (total_cost d); VFloat (logistics_cost d);
        VFloat (penalties d); VFloat (total_expenses d);
        VFloat (revenue d); VFloat (net_profit d);
        VFloat (margin_percent d) ]
  | Total t =>
      [ VText (t_article t); VText (t_brand t); VText (t_title t);
        VInt (t_units_sold t); VInt (t_units_returned t);
        VText (t_avg_sale_price t); VText (t_unit_cost t);
        VFloat (t_total_cost t); VFloat (t_logistics_cost t);
        VFloat (t_penalties t); VFloat (t_total_expenses t);
        VFloat (t_revenue t); VFloat (t_net_profit t);
        VFloat (t_margin_percent t) ]
  end.

(** [Font(bold=.., size=.., color=..)] *)
Record font : Type := {
  bold : bool;
  size : option nat;
  color : option string
}.

Definition plain_font : font :=
  {| bold := false; size := None; color := None |}.

Inductive horizontal : Type := HLeft | HRight.

Inductive number_format : Type :=
| General
| Money        (* '#,##0.00' *)
| Percent.     (* 0.00 followed by a percent sign *)

(** A data cell of the sheet; each one also gets a thin border. *)
Record sheet_cell : Type := {
  cell_value : value;
  cell_font : font;
  cell_fill : option string;
  cell_alignment : horizontal;
  cell_format : number_format
}.

(** The net profit of a row, the float of column 13. *)
Definition profit_of (r : report_row) : float :=
  row_money net_profit t_net_profit r.

(** The body of the two nested loops over the data: the cell at
    [row_idx], [col_idx] of a frame of [len_df] rows. *)
Definition style_cell (len_df row_idx col_idx : nat) (r : report_row)
    (v : value) : sheet_cell :=
  let is_total := (row_idx =? len_df + 3)%nat in
  let font1 :=
    if is_total then {| bold := true; size := Some 11%nat; color := None |}
    else plain_font in
  let fill := if is_total then Some "E7E6E6"%string else None in
  let alignment := if (col_idx <=? 3)%nat then HLeft else HRight in
  let format :=
    if existsb (Nat.eqb col_idx) [6; 7; 8; 9; 10; 11; 12; 13]%nat then Money
    else if (col_idx =? 14)%nat then Percent
    else General in
  let font2 :=
    if (col_idx =? 13)%nat then
      if (profit_of r <? 0)%float
      then {| bold := true; size := None; color := Some "FF0000"%string |}
      else if (0 <? profit_of r)%float
      then {| bold := true; size := None; color := Some "008000"%string |}
      else font1
    else font1 in
  {| cell_value := v; cell_font := font2; cell_fill := fill;
     cell_alignment := alignment; cell_format := format |}.

(** [enumerate(l, start)] *)
Definition enumerate {A : Type} (l : list A) (start : nat) : list (nat * A) :=
  combine (seq start (List.length l)) l.

(** The data rows of the sheet, from row 4 on. *)
Definition sheet_rows (df : list report_row) : list (list sheet_cell) :=
  map (fun '(row_idx, r) =>
         map (fun '(col_idx, v) =>
                style_cell (List.length df) row_idx col_idx r v)
           (enumerate (row_values r) 1))
    (enumerate df 4).

(** The cell in data row [i], column [j] of the sheet, both counted from
    0. *)
Definition sheet_cell_at (df : list report_row) (i j : nat)
    : option sheet_cell :=
  match nth_error (sheet_rows df) i with
  | Some cells => nth_error cells j
  | None => None
  end.

(** ** The typed path *)

(** White space, a quote, or a byte of a character beyond ASCII. *)
Definition is_padding (c : ascii) : bool :=
  is_space c || is_quote c || negb (is_ascii c).

(** No character of [l] that [p] accepts stands first. *)
Definition starts_clean (p : ascii -> bool) (l : list ascii) : Prop :=
  match l with
  | [] => True
  | c :: _ => p c = false
  end.

(** ** Sample tables *)

Definition tx (a doc : string) (qty : Z) (price delivery penalty remit : float)
    : transaction :=
  {| tx_article := a; tx_doc_type := doc; tx_qty := qty; tx_price := price;
     tx_delivery := delivery; tx_penalty := penalty; tx_remittance := remit;
     tx_title := a; tx_brand := EmptyString |}.

(** The list the loop builds on a table, with the library [numpy]. *)
Definition frame_of (t : table) : list summary_row :=
  match summary numpy t with
  | Ok data => data
  | Raise _ => []
  end.

Definition row_of (t : table) (a : string) : summary_row :=
  entry numpy a EmptyString a (aggregate numpy (select tx_article a (rows t))).

(** Article A sold 10 at 100 and took back 2; article B only has a return
    with a penalty of 50. *)
Definition shop_table : table :=
  {| has_brand := false;
     rows := [ tx "A" SALE 10 100 0 0 900;
               tx "A" RETURN 2 100 0 0 0;
               tx "B" RETURN 1 5 0 50 0 ] |}.

Definition shop_rows : list summary_row := Eval vm_compute in frame_of shop_table.

Definition shop_frame : DataFrame :=
  {| columns := report_columns; records := shop_rows |}.

Definition shop_row_A : summary_row := Eval vm_compute in row_of shop_table "A".

Definition shop_row_B : summary_row := Eval vm_compute in row_of shop_table "B".

(** Three sales of one article at 1, 1 and 2, with a delivery fee of 0.004
    on the first. *)
Definition price_table : table :=
  {| has_brand := false;
     rows := [ tx "A" SALE 1 1 0.004 0 0;
               tx "A" SALE 1 1 0 0 0;
               tx "A" SALE 1 2 0 0 0 ] |}.

Definition price_rows : list summary_row := Eval vm_compute in frame_of price_table.

Definition price_frame : DataFrame :=
  {| columns := report_columns; records := price_rows |}.

(** One row with a fee, a penalty and a remittance of 0.004 each. *)
Definition small_table : table :=
  {| has_brand := false;
     rows := [ tx "A" RETURN 1 0 0.004 0.004 0.004 ] |}.

Definition small_rows : list summary_row := Eval vm_compute in frame_of small_table.

Definition small_frame : DataFrame :=
  {| columns := report_columns; records := small_rows |}.

(** Two articles that brought 0.1 and 0.2. *)
Definition dime_table : table :=
  {| has_brand := false;
     rows := [ tx "A" SALE 1 0 0 0 0.1; tx "B" SALE 1 0 0 0 0.2 ] |}.

Definition dime_rows : list summary_row := Eval vm_compute in frame_of dime_table.

Definition dime_frame : DataFrame :=
  {| columns := report_columns; records := dime_rows |}.

(** Three units of one article sold at 99.99. *)
Definition cost_table : table :=
  {| has_brand := false; rows := [ tx "A" SALE 3 99.99 0 0 250 ] |}.

Definition cost_rows : list summary_row := Eval vm_compute in frame_of cost_table.

Definition cost_frame : DataFrame :=
  {| columns := report_columns; records := cost_rows |}.

Definition cost_row : summary_row := Eval vm_compute in row_of cost_table "A".

(** Two sales at 1.13 and 1.14, whose mean is the float just below
    1.135. *)
Definition near_tie_table : table :=
  {| has_brand := false;
     rows := [ tx "A" SALE 1 1.13 0 0 0; tx "A" SALE 1 1.14 0 0 0 ] |}.

(** Remittances of 0.1, 0.2 and -0.3, and a penalty of 10. *)
Definition cancel_table : table :=
  {| has_brand := false;
     rows := [ tx "A" SALE 1 0 0 10 0.1; tx "A" SALE 1 0 0 0 0.2;
               tx "A" SALE 1 0 0 0 (-0.3) ] |}.

(** A return with a fee of 0.075 and a remittance of 10. *)
Definition fee_table : table :=
  {| has_brand := false; rows := [ tx "A" RETURN 1 0 0.075 0 10 ] |}.

(** A sheet with the header row and no transaction. *)
Definition empty_table : table := {| has_brand := true; rows := [] |}.

(** A frame with the columns of the report and no record. *)
Definition bare_frame : DataFrame :=
  {| columns := report_columns; records := [] |}.

(** A world without files, with nothing typed and nothing printed. *)
Definition bare_world : world :=
  {| fs := fun _ => None; console := []; stdin := [];
     today := "01.02.2025" |}.

(** The frame of [shop_table] with its total row. *)
Definition shop_report : list report_row :=
  Eval vm_compute in map Data shop_rows ++ [Total (total_of numpy shop_frame)].


(** * Properties *)

(** ** Numbers *)

Example rint_ties :
  rint 0.5 = 0%float /\ rint 1.5 = 2%float /\ rint 2.5 = 2%float
  /\ rint (-2.5) = (-2)%float /\ rint (-0.4) = (-0)%float.
Proof. repeat split; reflexivity. Qed.

(** The mean of 1.13 and 1.14 is the float 1.1349999999999998, which rounds
    to 1.13; 9.925 is the float 9.925000000000000711, which rounds to
    9.93; 0.125 is a float and a tie, which goes to the even hundredth. *)
Example round2_samples :
  nanmean [1.13; 1.14]%float = 1.1349999999999998%float
  /\ numpy_round2 (nanmean [1.13; 1.14]%float) = 1.13%float
  /\ numpy_round2 9.925 = 9.93%float
  /\ numpy_round2 0.125 = 0.12%float.
Proof. repeat split; reflexivity. Qed.

(** Sums of floats carry the error of each addition. *)
Example nansum_samples :
  nansum [0.1; 0.2]%float = 0.30000000000000004%float
  /\ nansum [0.1; 0.2; -0.3]%float = 0x1p-54%float
  /\ nansum [1; nan; 2]%float = 3%float.
Proof. repeat split; reflexivity. Qed.

(** The sum of an int64 column wraps around. *)
Example sumZ_wraps : sumZ [2 ^ 62; 2 ^ 62]%Z = (- 2 ^ 63)%Z.
Proof. reflexivity. Qed.

(** Integers beyond 2^53 lose their last bits when they become floats. *)
Example float_of_int64_samples :
  float_of_int64 9007199254740993 = 9007199254740992%float
  /\ float_of_int64 (- 2 ^ 63) = (-9223372036854775808)%float
  /\ float_of_int64 (-3) = (-3)%float.
Proof. repeat split; reflexivity. Qed.

(** The records of three small tables, as the program stores them: the
    mean of 1.13 and 1.14 rounds down to 1.13; remittances that cancel on
    paper sum to 2^-54, which is above zero, so the margin is computed; a
    net profit of 10 - 0.075 is the float just above 9.925 and rounds to
    9.93. *)
Example stored_records :
  map avg_sale_price (frame_of near_tie_table) = [1.13]%float
  /\ map revenue (frame_of cancel_table) = [0]%float
  /\ map margin_percent (frame_of cancel_table)
     = [-1.8014398509481984e+19]%float
  /\ map net_profit (frame_of fee_table) = [9.93]%float.
Proof. repeat split; reflexivity. Qed.

Lemma int64_congr (a b : Z) :
  (a mod 2 ^ 64 = b mod 2 ^ 64)%Z -> int64 a = int64 b.
Proof.
  intros E. unfold int64.
  rewrite <- (Zplus_mod_idemp_l a), E, Zplus_mod_idemp_l. reflexivity.
Qed.

Lemma int64_mod (a : Z) : (int64 a mod 2 ^ 64 = a mod 2 ^ 64)%Z.
Proof.
  unfold int64. rewrite Zminus_mod_idemp_l. f_equal. lia.
Qed.

Lemma int64_range (a : Z) : (- 2 ^ 63 <= int64 a < 2 ^ 63)%Z.
Proof.
  unfold int64.
  pose proof (Z.mod_pos_bound (a + 2 ^ 63) (2 ^ 64)) as B. lia.
Qed.

(** An integer within the range is its own int64. *)
Lemma int64_small (a : Z) : (- 2 ^ 63 <= a < 2 ^ 63)%Z -> int64 a = a.
Proof.
  intros R. unfold int64. rewrite Z.mod_small; lia.
Qed.

(** Wrapping the terms of a sum does not change the wrapped sum. *)
Lemma sumZ_wrapped {A : Type} (f : A -> Z) (l : list A) :
  sumZ (map (fun x => int64 (f x)) l) = sumZ (map f l).
Proof.
  unfold sumZ. apply int64_congr.
  induction l as [|x l IH]; [reflexivity|].
  cbn [map Zsum fold_right]. fold (Zsum (map (fun x => int64 (f x)) l)).
  fold (Zsum (map f l)).
  rewrite Zplus_mod, int64_mod, IH, <- Zplus_mod. reflexivity.
Qed.

(** ** Tests over ranges of amounts *)

Lemma holds_along_spec (test : float -> float -> float -> bool) (n i : nat) :
  forall j : nat,
    holds_along test n (whole i) (whole j) (whole (i + j)) = true ->
    forall k : nat, (k < n)%nat ->
      test (whole i) (whole (j + k)) (whole (i + (j + k))) = true.
Proof.
  induction n as [|n IH]; intros j H k K; [lia|].
  cbn [holds_along] in H. apply andb_prop in H as [H1 H2].
  destruct k as [|k].
  - rewrite Nat.add_0_r. exact H1.
  - change (whole j + 1)%float with (whole (S j)) in H2.
    change (whole (i + j) + 1)%float with (whole (S (i + j))) in H2.
    rewrite <- Nat.add_succ_r in H2.
    replace (j + S k)%nat with (S j + k)%nat by lia.
    apply IH; [exact H2|lia].
Qed.

Lemma holds_across_spec (test : float -> float -> float -> bool) (m n : nat) :
  forall i : nat,
    holds_across test m n (whole i) = true ->
    forall k l : nat, (k < m)%nat -> (l < n)%nat ->
      test (whole (i + k)) (whole l) (whole (i + k + l)) = true.
Proof.
  induction m as [|m IH]; intros i H k l K Len; [lia|].
  cbn [holds_across] in H. apply andb_prop in H as [H1 H2].
  destruct k as [|k].
  - rewrite Nat.add_0_r.
    apply (holds_along_spec test n i 0); [|exact Len].
    rewrite Nat.add_0_r. exact H1.
  - change (whole i + 1)%float with (whole (S i)) in H2.
    replace (i + S k)%nat with (S i + k)%nat by lia.
    apply IH; [exact H2|lia|exact Len].
Qed.

(** Another rounding leaves every amount of up to 1000.00 as it is. *)
Lemma cents_kept (k : nat) :
  (k <= 100 * 1000)%nat -> round2 numpy (cents k) = cents k.
Proof.
  intros K. apply FloatAxioms.Leibniz.eqb_spec.
  apply (holds_along_spec kept (S (100 * 1000)) 0 0);
    [vm_compute; reflexivity|lia].
Qed.

(** The rounded sum of a column of two amounts of up to 20.00 is the amount
    of their cents added. *)
Lemma cents_repaired (i j : nat) :
  (i <= 2000)%nat -> (j <= 2000)%nat ->
  round2 numpy (series_sum numpy [cents i; cents j]) = cents (i + j).
Proof.
  intros I J. apply FloatAxioms.Leibniz.eqb_spec.
  apply (holds_across_spec repaired (S 2000) (S 2000) 0);
    [vm_compute; reflexivity|lia|lia].
Qed.

(** ** Floats *)

(** A float below zero is not above zero. *)
Lemma ltb_exclusive (x : float) :
  (x <? 0)%float = true -> (0 <? x)%float = false.
Proof.
  rewrite !ltb_spec. change (Prim2SF 0) with (S754_zero false).
  destruct (Prim2SF x) as [s|s| |s m e]; try destruct s; cbn; congruence.
Qed.

(** Dividing by a zero gives an infinity or [nan], whatever is divided. *)
Lemma div_by_zero (x d : float) :
  (d =? 0)%float = true -> is_finite (x / d) = false.
Proof.
  intros Z. rewrite eqb_spec in Z.
  change (Prim2SF 0) with (S754_zero false) in Z.
  unfold is_finite, is_nan, is_infinity.
  rewrite !eqb_spec, abs_spec, div_spec.
  change (Prim2SF infinity) with (S754_infinity false).
  destruct (Prim2SF d) as [s|s| |s m e];
    try (destruct s; discriminate Z); try discriminate Z.
  destruct (Prim2SF x) as [t|t| |t m e]; try destruct t; destruct s;
    reflexivity.
Qed.

(** ** Orders on the sort column *)





(** ** The reference sort is a sort *)

Section InsertionSort.

Variable leb : summary_row -> summary_row -> bool.
Hypothesis leb_total : forall a b, leb a b = true \/ leb b a = true.
Hypothesis leb_trans :
  forall a b c, leb a b = true -> leb b c = true -> leb a c = true.





End InsertionSort.

(** ** The loop of [process_report] *)

Lemma In_unique (a : string) (l : list string) : In a (unique l) <-> In a l.
Proof.
  induction l as [|x l IH]; simpl.
  - tauto.
  - rewrite filter_In, IH, negb_true_iff, String.eqb_neq.
    destruct (string_dec x a) as [E|N].
    + tauto.
    + split; [tauto|]. intros [H|H]; [tauto|]. right. split; congruence.
Qed.

Lemma NoDup_unique (l : list string) : NoDup (unique l).
Proof.
  induction l as [|x l IH]; simpl.
  - constructor.
  - constructor.
    + rewrite filter_In, negb_true_iff, String.eqb_neq. tauto.
    + apply NoDup_filter. exact IH.
Qed.

Lemma select_In (col : transaction -> string) (v : string)
    (d : list transaction) (r : transaction) :
  In r (select col v d) <-> In r d /\ col r = v.
Proof. unfold select. rewrite filter_In, String.eqb_eq. tauto. Qed.

Lemma select_article_nonempty (df : table) (a : string) :
  In a (map tx_article (rows df)) -> select tx_article a (rows df) <> [].
Proof.
  rewrite in_map_iff. intros [r [E H]] N.
  assert (I : In r (select tx_article a (rows df))) by (apply select_In; auto).
  rewrite N in I. exact I.
Qed.

Lemma for_each_Forall2 {A B : Type} (body : A -> result B)
    (l : list A) (ys : list B) :
  for_each body l = Ok ys <-> Forall2 (fun x y => body x = Ok y) l ys.
Proof.
  revert ys. induction l as [|x l IH]; intros ys; simpl.
  - split.
    + intros E. injection E as <-. constructor.
    + intros F. inversion F. reflexivity.
  - split.
    + destruct (body x) as [y|e] eqn:Ex; simpl; [|discriminate].
      destruct (for_each body l) as [zs|e] eqn:El; simpl; [|discriminate].
      intros E. injection E as <-. constructor; [exact Ex|].
      apply IH. reflexivity.
    + intros F. inversion F as [|x' y l' zs Ex Fl]; subst.
      rewrite Ex. simpl. apply IH in Fl. rewrite Fl. reflexivity.
Qed.

Lemma for_each_total {A B : Type} (body : A -> result B) (l : list A) :
  (forall x, In x l -> exists y, body x = Ok y) ->
  exists ys, for_each body l = Ok ys.
Proof.
  induction l as [|x l IH]; intros H; simpl.
  - eauto.
  - destruct (H x) as [y Ey]; [left; reflexivity|].
    destruct IH as [ys Eys]; [intros z Hz; apply H; right; exact Hz|].
    rewrite Ey, Eys. simpl. eauto.
Qed.

Lemma Forall2_In_r {A B : Type} (R : A -> B -> Prop) (l : list A)
    (l' : list B) (y : B) :
  Forall2 R l l' -> In y l' -> exists x, In x l /\ R x y.
Proof.
  induction 1 as [|a b l l' Hab _ IH]; simpl; [tauto|].
  intros [<-|H].
  - eauto.
  - destruct (IH H) as [x [Hx Hxy]]. eauto.
Qed.

Lemma NoDup_map_eq {A B : Type} (f : A -> B) (l : list A) (x y : A) :
  NoDup (map f l) -> In x l -> In y l -> f x = f y -> x = y.
Proof.
  induction l as [|a l IH]; simpl; [tauto|].
  intros N Hx Hy E. inversion N as [|b l' Na Nl]; subst.
  destruct Hx as [<-|Hx], Hy as [<-|Hy].
  - reflexivity.
  - exfalso. apply Na. rewrite E. apply in_map. exact Hy.
  - exfalso. apply Na. rewrite <- E. apply in_map. exact Hx.
  - apply IH; assumption.
Qed.

Section Frames.

Context {L : library}.

(** What the loop appends for an article of the table. *)
Lemma summarize_Ok (df : table) (a : string) :
  In a (map tx_article (rows df)) ->
  exists b t : string,
    summarize L df a
    = Ok (entry L a b t (aggregate L (select tx_article a (rows df)))).
Proof.
  intros H. apply select_article_nonempty in H. unfold summarize.
  destruct (select tx_article a (rows df)) as [|r d]; [congruence|].
  destruct (has_brand df); simpl; eauto.
Qed.

(** The loop never raises: every article it visits has a row. *)
Lemma summary_total (df : table) : exists data, summary L df = Ok data.
Proof.
  apply for_each_total. intros a Ha. apply (proj1 (In_unique _ _)) in Ha.
  destruct (summarize_Ok df a Ha) as [b [t E]]. eauto.
Qed.

Lemma summary_length (df : table) (data : list summary_row) :
  summary L df = Ok data ->
  List.length data = List.length (unique (map tx_article (rows df))).
Proof.
  intros E. apply for_each_Forall2 in E. symmetry.
  induction E; simpl; congruence.
Qed.

Lemma summary_articles (df : table) (data : list summary_row) :
  summary L df = Ok data ->
  map article data = unique (map tx_article (rows df)).
Proof.
  intros E. apply for_each_Forall2 in E.
  assert (A : forall a, In a (unique (map tx_article (rows df))) ->
                        In a (map tx_article (rows df))).
  { intros a. apply In_unique. }
  induction E as [|a r l l' Har _ IH]; simpl.
  - reflexivity.
  - destruct (summarize_Ok df a) as [b [t Er]]; [apply A; left; reflexivity|].
    rewrite Er in Har. injection Har as <-. simpl. f_equal.
    apply IH. intros a' Ha'. apply A. right. exact Ha'.
Qed.

(** A column of the loop's list, read off the articles. *)
Lemma summary_column {A : Type} (df : table) (data : list summary_row)
    (g : summary_row -> A) (h : string -> A) :
  summary L df = Ok data ->
  (forall a b t,
     g (entry L a b t (aggregate L (select tx_article a (rows df)))) = h a) ->
  map g data = map h (unique (map tx_article (rows df))).
Proof.
  intros E G. apply for_each_Forall2 in E.
  assert (A0 : forall a, In a (unique (map tx_article (rows df))) ->
                         In a (map tx_article (rows df))).
  { intros a. apply In_unique. }
  induction E as [|a r l l' Har _ IH]; simpl; [reflexivity|].
  destruct (summarize_Ok df a) as [b [t Er]]; [apply A0; left; reflexivity|].
  rewrite Er in Har. injection Har as <-. rewrite G. f_equal.
  apply IH. intros a' Ha'. apply A0. right. exact Ha'.
Qed.

(** *** Outcomes of [process_report] *)

Lemma process_report_Ok_inv (df : table) (out : DataFrame) :
  process_report L df (Ok out) ->
  exists data,
    summary L df = Ok data /\ data <> [] /\ columns out = report_columns
    /\ Permutation data (records out)
    /\ sorted_by SORT_BY SORT_ASCENDING (records out).
Proof.
  intros H. inversion H as [e E | data res E S]; subst.
  inversion S as [l C P St|]; subst.
  exists data. destruct data as [|r data]; [discriminate C|].
  repeat split; try assumption. discriminate.
Qed.

Lemma process_report_Raise_inv (df : table) (e : exn) :
  process_report L df (Raise e) ->
  rows df = [] /\ e = KeyError (label_name SORT_BY).
Proof.
  intros H. inversion H as [e' E | data res E S]; subst.
  - destruct (summary_total df) as [data E']. congruence.
  - inversion S as [|C]; subst. split; [|reflexivity].
    destruct data as [|r data]; [|discriminate C].
    apply summary_length in E.
    destruct (rows df) as [|t ts]; [reflexivity|discriminate E].
Qed.


Lemma process_report_intro (df : table) (data l : list summary_row) :
  summary L df = Ok data -> data <> [] -> Permutation data l ->
  sorted_by SORT_BY SORT_ASCENDING l ->
  process_report L df (Ok {| columns := report_columns; records := l |}).
Proof.
  intros E N P S. apply process_report_sort with (data := data); [exact E|].
  destruct data as [|r data]; [congruence|].
  apply (sort_values_sorted SORT_BY SORT_ASCENDING
           (DataFrame_of (r :: data)) l); [reflexivity|exact P|exact S].
Qed.

Lemma process_report_Ok_rows (df : table) (out : DataFrame) :
  process_report L df (Ok out) -> rows df <> [].
Proof.
  intros H Z.
  destruct (process_report_Ok_inv df out H) as [data [E [N _]]].
  apply summary_length in E. rewrite Z in E.
  destruct data; [congruence|discriminate E].
Qed.

(** A frame of [process_report] has the columns of the report and a
    record. *)
Lemma process_report_frame (df : table) (out : DataFrame) :
  process_report L df (Ok out) ->
  columns out = report_columns /\ records out <> [].
Proof.
  intros H.
  destruct (process_report_Ok_inv df out H) as [data [_ [N [C [P _]]]]].
  split; [exact C|]. intros Z. rewrite Z in P.
  apply Permutation_sym, Permutation_nil in P. congruence.
Qed.

(** On a table without rows the sort raises, and nothing else happens. *)
Lemma process_report_no_rows (brand_column : bool) (res : result DataFrame) :
  process_report L {| has_brand := brand_column; rows := [] |} res
  <-> res = Raise (KeyError "Продано (шт)").
Proof.
  split.
  - intros H. destruct res as [out|e].
    + apply process_report_Ok_inv in H.
      destruct H as [data [E [N _]]]. injection E as <-. congruence.
    + apply process_report_Raise_inv in H. destruct H as [_ ->]. reflexivity.
  - intros ->. apply process_report_sort with (data := []); [reflexivity|].
    apply (sort_values_KeyError SORT_BY SORT_ASCENDING (DataFrame_of [])).
    reflexivity.
Qed.

(** *** The records of the sorted frame *)

(** Every record of the frame is the entry of an article of the table. *)
Lemma process_report_record (df : table) (out : DataFrame) (r : summary_row) :
  process_report L df (Ok out) -> In r (records out) ->
  In (article r) (map tx_article (rows df))
  /\ exists b t : string,
       r = entry L (article r) b t
             (aggregate L (select tx_article (article r) (rows df))).
Proof.
  intros H Hr.
  destruct (process_report_Ok_inv df out H) as [data [E [_ [_ [P _]]]]].
  apply (Permutation_in _ (Permutation_sym P)) in Hr.
  apply for_each_Forall2 in E.
  destruct (Forall2_In_r _ _ _ _ E Hr) as [a [Ha Ea]].
  apply (proj1 (In_unique _ _)) in Ha.
  destruct (summarize_Ok df a Ha) as [b [t Eb]].
  rewrite Eb in Ea. injection Ea as <-. simpl. split; [exact Ha|eauto].
Qed.

(** Every article of the table has a record in the frame. *)
Lemma process_report_covers (df : table) (out : DataFrame) (a : string) :
  process_report L df (Ok out) -> In a (map tx_article (rows df)) ->
  exists r, In r (records out) /\ article r = a.
Proof.
  intros H Ha.
  destruct (process_report_Ok_inv df out H) as [data [E [_ [_ [P _]]]]].
  pose proof (summary_articles df data E) as M.
  apply (proj2 (In_unique _ _)) in Ha. rewrite <- M in Ha.
  apply in_map_iff in Ha. destruct Ha as [r [Er Hr]].
  exists r. split; [|exact Er]. apply (Permutation_in _ P). exact Hr.
Qed.

(** No article has two records. *)
Lemma process_report_one_record (df : table) (out : DataFrame)
    (r r' : summary_row) :
  process_report L df (Ok out) -> In r (records out) -> In r' (records out) ->
  article r = article r' -> r = r'.
Proof.
  intros H Hr Hr'.
  destruct (process_report_Ok_inv df out H) as [data [E [_ [_ [P _]]]]].
  apply (NoDup_map_eq article (records out)); try assumption.
  apply (Permutation_NoDup (Permutation_map article P)).
  rewrite (summary_articles df data E). apply NoDup_unique.
Qed.

End Frames.

(** Builds an outcome of [process_report] on a sample table. *)
Ltac sample_outcome :=
  eapply process_report_intro;
  [ vm_compute; reflexivity
  | discriminate
  | try apply Permutation_refl
  | repeat constructor ].

Lemma shop_outcome : process_report numpy shop_table (Ok shop_frame).
Proof. sample_outcome. Qed.

Lemma price_outcome : process_report numpy price_table (Ok price_frame).
Proof. sample_outcome. Qed.

Lemma small_outcome : process_report numpy small_table (Ok small_frame).
Proof. sample_outcome. Qed.

Lemma dime_outcome : process_report numpy dime_table (Ok dime_frame).
Proof. sample_outcome. Qed.

Lemma cost_outcome : process_report numpy cost_table (Ok cost_frame).
Proof. sample_outcome. Qed.

(** ** What a record holds *)

(** The dict of an article, field by field, read off the rows of the
    article. *)
Lemma entry_of_rows (L : library) (a b t : string) (d : list transaction) :
  let sales := select tx_doc_type SALE d in
  let returns := select tx_doc_type RETURN d in
  let mean := mean_sale_price L sales in
  let cost :=
    (mean * COST_PERCENTAGE * float_of_int64 (sumZ (map tx_qty sales)))%float in
  let fees := series_sum L (map tx_delivery d) in
  let fines := series_sum L (map tx_penalty d) in
  let income := series_sum L (map tx_remittance d) in
  entry L a b t (aggregate L d)
  = {| article := a; brand := b; title := t;
       units_sold := sumZ (map tx_qty sales);
       units_returned := sumZ (map tx_qty returns);
       avg_sale_price := rounded_if_sold L sales mean;
       unit_cost := rounded_if_sold L sales (mean * COST_PERCENTAGE);
       total_cost := round2 L cost;
       logistics_cost := round2 L fees;
       penalties := round2 L fines;
       total_expenses := round2 L (cost + fees + fines);
       revenue := round2 L income;
       net_profit := round2 L (income - (cost + fees + fines));
       margin_percent := margin L (income - (cost + fees + fines)) income |}.
Proof.
  intros sales returns mean cost fees fines income.
  unfold entry, aggregate.
  cbn [sales_count qty_sold qty_returned avg_price cost_price raw_total_cost
       raw_logistics_cost raw_penalties raw_total_expenses raw_revenue
       raw_net_profit].
  subst mean cost. fold sales.
  destruct sales; reflexivity.
Qed.

(** A record of the frame, field by field, read off the table. *)
Lemma record_of_rows (L : library) (df : table) (out : DataFrame)
    (r : summary_row) :
  process_report L df (Ok out) -> In r (records out) ->
  let article_data := select tx_article (article r) (rows df) in
  let sales := select tx_doc_type SALE article_data in
  let returns := select tx_doc_type RETURN article_data in
  let mean := mean_sale_price L sales in
  let cost :=
    (mean * COST_PERCENTAGE * float_of_int64 (sumZ (map tx_qty sales)))%float in
  let fees := series_sum L (map tx_delivery article_data) in
  let fines := series_sum L (map tx_penalty article_data) in
  let income := series_sum L (map tx_remittance article_data) in
  units_sold r = sumZ (map tx_qty sales)
  /\ units_returned r = sumZ (map tx_qty returns)
  /\ avg_sale_price r = rounded_if_sold L sales mean
  /\ unit_cost r = rounded_if_sold L sales (mean * COST_PERCENTAGE)
  /\ total_cost r = round2 L cost
  /\ logistics_cost r = round2 L fees
  /\ penalties r = round2 L fines
  /\ total_expenses r = round2 L (cost + fees + fines)
  /\ revenue r = round2 L income
  /\ net_profit r = round2 L (income - (cost + fees + fines))
  /\ margin_percent r = margin L (income - (cost + fees + fines)) income.
Proof.
  intros H Hr article_data sales returns mean cost fees fines income.
  destruct (process_report_record df out r H Hr) as [_ [b [t E]]].
  fold article_data in E. rewrite entry_of_rows in E.
  fold sales returns mean cost fees fines income in E.
  rewrite E. cbn. repeat split; reflexivity.
Qed.

(** ** C1: what a record holds *)

(** C1, as stated, fails: on [price_table] the record of article A holds
    1.33 as average sale price while the mean of the sale prices is the
    float 1.3333333333333333, and 0.0 as logistics cost while the delivery
    fees sum to 0.004. *)
Lemma C1_stored_values_are_rounded :
  process_report numpy price_table (Ok price_frame)
  /\ exists r : summary_row,
       In r (records price_frame) /\ article r = "A"%string
       /\ avg_sale_price r = 1.33%float
       /\ mean_sale_price numpy
            (select tx_doc_type SALE
               (select tx_article "A" (rows price_table)))
          = 1.3333333333333333%float
       /\ logistics_cost r = 0%float
       /\ series_sum numpy
            (map tx_delivery (select tx_article "A" (rows price_table)))
          = 0.004%float.
Proof.
  split; [exact price_outcome|].
  eexists. split; [left; reflexivity|].
  repeat split; reflexivity.
Qed.

(** C1, amended: for every table and every article in it, each frame that
    [process_report] returns has exactly one record of that article; its
    average sale price is the mean of the retail price over the article's
    Sale rows rounded to 2 decimals, and 0 without Sale rows; its units
    sold and returned are the int64 sums of the quantity over the Sale and
    the Return rows; and its logistics cost, penalties and revenue are the
    sums of the fee, the penalty and the remittance over all rows of the
    article, whatever their document type, each rounded to 2 decimals.
    The mean, the sums and the rounding are those of the library the
    program runs with. *)
Theorem C1_record_of_article (L : library) (df : table) (out : DataFrame)
    (a : string) :
  process_report L df (Ok out) ->
  In a (map tx_article (rows df)) ->
  let article_data := select tx_article a (rows df) in
  let sales := select tx_doc_type SALE article_data in
  let returns := select tx_doc_type RETURN article_data in
  exists r : summary_row,
    In r (records out) /\ article r = a
    /\ (forall r', In r' (records out) -> article r' = a -> r' = r)
    /\ (sales <> [] ->
        avg_sale_price r = round2 L (series_mean L (map tx_price sales)))
    /\ (sales = [] -> avg_sale_price r = 0%float)
    /\ units_sold r = sumZ (map tx_qty sales)
    /\ units_returned r = sumZ (map tx_qty returns)
    /\ logistics_cost r = round2 L (series_sum L (map tx_delivery article_data))
    /\ penalties r = round2 L (series_sum L (map tx_penalty article_data))
    /\ revenue r = round2 L (series_sum L (map tx_remittance article_data)).
Proof.
  intros H Ha article_data sales returns.
  destruct (process_report_covers df out a H Ha) as [r [Hr Er]].
  pose proof (record_of_rows L df out r H Hr) as F. cbv zeta in F.
  rewrite Er in F. fold article_data sales returns in F.
  destruct F as [Fs [Fr [Fa [_ [_ [Fl [Fp [_ [Fv _]]]]]]]]].
  exists r. split; [exact Hr|]. split; [exact Er|]. split.
  { intros r' Hr' Er'.
    apply (process_report_one_record df out r' r H Hr' Hr). congruence. }
  repeat split; try assumption.
  - intros N. rewrite Fa. destruct sales; [congruence|reflexivity].
  - intros Z. rewrite Fa, Z. reflexivity.
Qed.

Lemma C1_record_of_article_witness :
  exists r : summary_row,
    In r (records shop_frame) /\ article r = "B"%string
    /\ avg_sale_price r = 0%float /\ units_returned r = 1%Z
    /\ penalties r = 50%float.
Proof.
  destruct (C1_record_of_article numpy shop_table shop_frame "B" shop_outcome)
    as [r [Hr [Er [_ [_ [Ea [_ [Eu [_ [Ep _]]]]]]]]]].
  - vm_compute. tauto.
  - exists r. repeat split; try assumption. apply Ea. reflexivity.
Defined.

(** ** C2: the identities between stored fields *)

(** C2, as stated, fails: on [small_table] the record holds 0.0 for the
    total cost, the logistics cost, the penalties and the revenue, 0.01 for
    the total expenses and -0.0 for the net profit. *)
Lemma C2_stored_fields_do_not_add_up :
  process_report numpy small_table (Ok small_frame)
  /\ exists r : summary_row,
       In r (records small_frame)
       /\ total_cost r = 0%float /\ logistics_cost r = 0%float
       /\ penalties r = 0%float /\ total_expenses r = 0.01%float
       /\ revenue r = 0%float /\ net_profit r = (-0)%float
       /\ (total_expenses r =? total_cost r + logistics_cost r + penalties r)%float
          = false
       /\ (net_profit r =? revenue r - total_expenses r)%float = false.
Proof.
  split; [exact small_outcome|].
  eexists. split; [left; reflexivity|].
  repeat split; reflexivity.
Qed.

(** C2, amended: every stored field is the 2-decimal rounding of its own
    unrounded value.  With the unrounded total cost (mean sale price times
    the cost ratio times the units sold), and the unrounded sums of the
    fees, the penalties and the remittances of the article, the stored
    total expenses are the rounding of total cost + fees + penalties and
    the stored net profit is the rounding of remittances minus that sum:
    the two identities hold between the unrounded values, and the stored
    values are rounded one by one, so that they need not add up. *)
Theorem C2_expenses_and_profit (L : library) (df : table) (out : DataFrame)
    (r : summary_row) :
  process_report L df (Ok out) ->
  In r (records out) ->
  let article_data := select tx_article (article r) (rows df) in
  let sales := select tx_doc_type SALE article_data in
  let cost :=
    (mean_sale_price L sales * COST_PERCENTAGE
     * float_of_int64 (sumZ (map tx_qty sales)))%float in
  let fees := series_sum L (map tx_delivery article_data) in
  let fines := series_sum L (map tx_penalty article_data) in
  let income := series_sum L (map tx_remittance article_data) in
  let expenses := (cost + fees + fines)%float in
  let profit := (income - expenses)%float in
  total_cost r = round2 L cost
  /\ logistics_cost r = round2 L fees
  /\ penalties r = round2 L fines
  /\ total_expenses r = round2 L expenses
  /\ revenue r = round2 L income
  /\ net_profit r = round2 L profit.
Proof.
  intros H Hr article_data sales cost fees fines income expenses profit.
  pose proof (record_of_rows L df out r H Hr) as F. cbv zeta in F.
  fold article_data sales cost fees fines income expenses profit in F.
  tauto.
Qed.

Lemma C2_expenses_and_profit_witness :
  In shop_row_A (records shop_frame)
  /\ total_expenses shop_row_A = 600%float
  /\ net_profit shop_row_A = 300%float.
Proof.
  split; [left; reflexivity|].
  destruct (C2_expenses_and_profit numpy shop_table shop_frame shop_row_A
              shop_outcome (or_introl eq_refl)) as [_ [_ [_ [Et [_ En]]]]].
  split; [exact Et|exact En].
Defined.

(** ** C3, C6: the total row *)

Lemma column_present {A : Type} (df : DataFrame) (c : label)
    (f : summary_row -> A) :
  columns df = report_columns ->
  column df c f = Ok (map f (records df)).
Proof.
  intros E. unfold column, has_column. rewrite E.
  destruct c; reflexivity.
Qed.

Lemma iloc_last_app {A : Type} (l : list A) (x : A) :
  iloc_last (l ++ [x]) = Ok x.
Proof. unfold iloc_last. rewrite rev_app_distr. reflexivity. Qed.

Lemma add_total_row_Ok (L : library) (df : DataFrame) :
  columns df = report_columns -> records df <> [] ->
  add_total_row L df = Ok (map Data (records df) ++ [Total (total_of L df)]).
Proof.
  intros E N. unfold add_total_row, total_ratio.
  rewrite !(column_present df _ _ E).
  destruct (records df) as [|r l] eqn:R; [congruence|].
  cbn [bind]. unfold total_of. rewrite R. reflexivity.
Qed.

(** On a frame with the columns and no record the division of the total
    margin raises. *)
Lemma add_total_row_no_records (L : library) (df : DataFrame) :
  columns df = report_columns -> records df = [] ->
  add_total_row L df = Raise ZeroDivisionError.
Proof.
  intros E N. unfold add_total_row, total_ratio.
  rewrite !(column_present df _ _ E), N. reflexivity.
Qed.

(** C3: for every frame with the report's columns and at least one record,
    as is every frame of [process_report], [add_total_row] returns the rows
    of the frame followed by one total row, which is the last row of the
    result.  In each summed column the total row holds the sum of the
    values stored in the records (the values already rounded at record
    creation): the int64 sum for the two quantity columns, which no
    rounding changes, and for the money columns the sum rounded to 2
    decimals; its average sale price and unit cost are the empty string. *)
Theorem C3_total_row (L : library) (df : DataFrame) :
  columns df = report_columns ->
  records df <> [] ->
  exists (out : list report_row) (t : total_row),
    add_total_row L df = Ok out
    /\ out = map Data (records df) ++ [Total t]
    /\ iloc_last out = Ok (Total t)
    /\ t_units_sold t = sumZ (map units_sold (records df))
    /\ t_units_returned t = sumZ (map units_returned (records df))
    /\ t_total_cost t = round2 L (series_sum L (map total_cost (records df)))
    /\ t_logistics_cost t
       = round2 L (series_sum L (map logistics_cost (records df)))
    /\ t_penalties t = round2 L (series_sum L (map penalties (records df)))
    /\ t_total_expenses t
       = round2 L (series_sum L (map total_expenses (records df)))
    /\ t_revenue t = round2 L (series_sum L (map revenue (records df)))
    /\ t_net_profit t = round2 L (series_sum L (map net_profit (records df)))
    /\ t_avg_sale_price t = EmptyString
    /\ t_unit_cost t = EmptyString.
Proof.
  intros E N.
  exists (map Data (records df) ++ [Total (total_of L df)]), (total_of L df).
  split; [apply add_total_row_Ok; assumption|].
  split; [reflexivity|].
  split; [apply iloc_last_app|].
  repeat split; reflexivity.
Qed.

Lemma C3_total_row_witness :
  exists (out : list report_row) (t : total_row),
    add_total_row numpy shop_frame = Ok out /\ iloc_last out = Ok (Total t)
    /\ t_units_sold t = 10%Z /\ t_net_profit t = 250%float.
Proof.
  assert (N : records shop_frame <> []) by discriminate.
  destruct (C3_total_row numpy shop_frame eq_refl N)
    as [out [t [Eo [_ [El [Es [_ [_ [_ [_ [_ [_ [En _]]]]]]]]]]]]].
  exists out, t. repeat split; assumption.
Defined.

(** C6: the margin of the total row is the sum of the net profit column
    divided by the sum of the revenue column, times 100, rounded to 2
    decimals, and nothing tests the divisor: the same division is done
    whatever the revenue sums to.  When it sums to zero the quotient is an
    infinity or [nan], not a finite number, and on a frame without records
    the division raises [ZeroDivisionError]; the per-record expression
    gives 0 whenever the revenue is not above zero. *)
Theorem C6_total_margin (L : library) (df : DataFrame) :
  columns df = report_columns ->
  let total_net_profit := series_sum L (map net_profit (records df)) in
  let total_revenue := series_sum L (map revenue (records df)) in
  (records df <> [] ->
   exists t : total_row,
     add_total_row L df = Ok (map Data (records df) ++ [Total t])
     /\ t_margin_percent t
        = round2 L (total_net_profit / total_revenue * 100)%float
     /\ ((total_revenue =? 0)%float = true ->
         is_finite (total_net_profit / total_revenue) = false))
  /\ (records df = [] -> add_total_row L df = Raise ZeroDivisionError)
  /\ ((0 <? total_revenue)%float = false ->
      margin L total_net_profit total_revenue = 0%float).
Proof.
  intros E np rev. split; [|split].
  - intros N. exists (total_of L df).
    split; [apply add_total_row_Ok; assumption|].
    split; [reflexivity|]. apply div_by_zero.
  - apply add_total_row_no_records. exact E.
  - intros G. unfold margin. rewrite G. reflexivity.
Qed.

Lemma C6_total_margin_witness :
  (exists t : total_row,
     add_total_row numpy shop_frame
     = Ok (map Data (records shop_frame) ++ [Total t])
     /\ t_margin_percent t = 27.78%float)
  /\ (exists t : total_row,
        add_total_row numpy small_frame
        = Ok (map Data (records small_frame) ++ [Total t])
        /\ is_nan (t_margin_percent t) = true)
  /\ add_total_row numpy bare_frame = Raise ZeroDivisionError.
Proof.
  destruct (C6_total_margin numpy shop_frame eq_refl) as [S _].
  destruct (C6_total_margin numpy small_frame eq_refl) as [T _].
  destruct (C6_total_margin numpy bare_frame eq_refl) as [_ [B _]].
  split; [|split].
  - destruct S as [t [E [M _]]]; [discriminate|].
    exists t. split; [exact E|]. rewrite M. reflexivity.
  - destruct T as [t [E [M _]]]; [discriminate|].
    exists t. split; [exact E|]. rewrite M. reflexivity.
  - apply B. reflexivity.
Defined.

(** ** C4: the second rounding *)

(** C4, as stated, fails.  On [dime_table] the two records hold revenues of
    0.1 and 0.2, which another rounding leaves as they are, like all the
    money of the two records; the revenue column sums to the float
    0.30000000000000004, and the total row holds its rounding, 0.3. *)
Lemma C4_float_sum_changes_when_rounded :
  process_report numpy dime_table (Ok dime_frame)
  /\ Forall (money_is_rounded numpy) (records dime_frame)
  /\ map revenue (records dime_frame) = [0.1; 0.2]%float
  /\ series_sum numpy (map revenue (records dime_frame))
     = 0.30000000000000004%float
  /\ exists t : total_row,
       add_total_row numpy dime_frame
       = Ok (map Data (records dime_frame) ++ [Total t])
       /\ t_revenue t = 0.3%float
       /\ (t_revenue t =? series_sum numpy (map revenue (records dime_frame)))%float
          = false.
Proof.
  split; [exact dime_outcome|].
  split; [repeat constructor|].
  split; [reflexivity|]. split; [reflexivity|].
  eexists. split; [reflexivity|]. split; reflexivity.
Qed.

(** C4, amended: the second rounding is not a no-op.  For every frame with
    the report's columns and a record, each money cell of the total row is
    the 2-decimal rounding of the sum of its column, and it is the sum
    itself exactly when the rounding leaves that sum as it is.  In numpy's
    arithmetic another rounding leaves an amount of whole cents as it is
    (amounts of up to 1000.00), but the sum of two such amounts need not be
    one (0.1 + 0.2), and the second rounding makes it the amount of their
    cents added (amounts of up to 20.00). *)
Theorem C4_total_is_the_rounded_sum :
  (forall (L : library) (df : DataFrame),
     columns df = report_columns ->
     records df <> [] ->
     exists t : total_row,
       add_total_row L df = Ok (map Data (records df) ++ [Total t])
       /\ forall (field : summary_row -> float) (total : total_row -> float),
            In (field, total) money_totals ->
            let column_sum := series_sum L (map field (records df)) in
            total t = round2 L column_sum
            /\ (total t = column_sum <-> round2 L column_sum = column_sum))
  /\ (forall k : nat,
        (k <= 100 * 1000)%nat -> round2 numpy (cents k) = cents k)
  /\ (forall i j : nat,
        (i <= 2000)%nat -> (j <= 2000)%nat ->
        round2 numpy (series_sum numpy [cents i; cents j]) = cents (i + j)).
Proof.
  split; [|split; [exact cents_kept|exact cents_repaired]].
  intros L df E N. exists (total_of L df).
  split; [apply add_total_row_Ok; assumption|].
  intros field total I s.
  assert (T : total (total_of L df) = round2 L s).
  { unfold money_totals in I. cbn [In] in I.
    repeat (destruct I as [I|I]; [injection I as <- <-; reflexivity|]).
    destruct I. }
  split; [exact T|]. rewrite T. tauto.
Qed.

Lemma C4_total_is_the_rounded_sum_witness :
  (exists t : total_row,
     add_total_row numpy shop_frame
     = Ok (map Data (records shop_frame) ++ [Total t])
     /\ t_total_expenses t = 650%float
     /\ t_total_expenses t
        = series_sum numpy (map total_expenses (records shop_frame)))
  /\ round2 numpy (cents 10) = 0.1%float
  /\ series_sum numpy [cents 10; cents 20] = 0.30000000000000004%float
  /\ round2 numpy (series_sum numpy [cents 10; cents 20]) = 0.3%float.
Proof.
  destruct C4_total_is_the_rounded_sum as [A [B C]].
  assert (N : records shop_frame <> []) by discriminate.
  destruct (A numpy shop_frame eq_refl N) as [t [E F]].
  destruct (F total_expenses t_total_expenses) as [X Y].
  { cbn. tauto. }
  split; [|split; [|split]].
  - exists t. split; [exact E|]. split.
    + rewrite X. reflexivity.
    + apply Y. reflexivity.
  - rewrite (B 10%nat); [reflexivity|lia].
  - reflexivity.
  - rewrite (C 10%nat 20%nat); [reflexivity|lia|lia].
Defined.

(** ** C5: the margin of a record *)

(** C5, as stated of the record's fields, fails: the record of
    [small_table] stores a revenue of 0.0, which is not above zero, and a
    margin of -100, not 0. *)
Lemma C5_margin_is_not_of_the_stored_fields :
  process_report numpy small_table (Ok small_frame)
  /\ exists r : summary_row,
       In r (records small_frame)
       /\ revenue r = 0%float
       /\ (0 <? revenue r)%float = false
       /\ margin_percent r = (-100)%float.
Proof.
  split; [exact small_outcome|].
  eexists. split; [left; reflexivity|].
  repeat split; reflexivity.
Qed.

(** C5, amended: the margin is computed from the variables of the loop
    body, before they are rounded.  With [income] the unrounded sum of the
    article's remittances and [profit] that sum minus the unrounded total
    expenses, the stored margin is [profit / income * 100] rounded to 2
    decimals when [income > 0], and 0 otherwise (zero, negative or [nan]);
    the stored revenue and net profit are the roundings of the same two
    variables. *)
Theorem C5_record_margin (L : library) (df : table) (out : DataFrame)
    (r : summary_row) :
  process_report L df (Ok out) ->
  In r (records out) ->
  let article_data := select tx_article (article r) (rows df) in
  let sales := select tx_doc_type SALE article_data in
  let cost :=
    (mean_sale_price L sales * COST_PERCENTAGE
     * float_of_int64 (sumZ (map tx_qty sales)))%float in
  let fees := series_sum L (map tx_delivery article_data) in
  let fines := series_sum L (map tx_penalty article_data) in
  let income := series_sum L (map tx_remittance article_data) in
  let profit := (income - (cost + fees + fines))%float in
  ((0 <? income)%float = true ->
   margin_percent r = round2 L (profit / income * 100)%float)
  /\ ((0 <? income)%float = false -> margin_percent r = 0%float)
  /\ revenue r = round2 L income
  /\ net_profit r = round2 L profit.
Proof.
  intros H Hr article_data sales cost fees fines income profit.
  pose proof (record_of_rows L df out r H Hr) as F. cbv zeta in F.
  fold article_data sales cost fees fines income profit in F.
  destruct F as [_ [_ [_ [_ [_ [_ [_ [_ [Fv [Fn Fm]]]]]]]]]].
  rewrite Fm. unfold margin.
  repeat split; try assumption; intros ->; reflexivity.
Qed.

Lemma C5_record_margin_witness :
  In shop_row_A (records shop_frame)
  /\ margin_percent shop_row_A = 33.33%float.
Proof.
  split; [left; reflexivity|].
  apply (proj1 (C5_record_margin numpy shop_table shop_frame shop_row_A
                  shop_outcome (or_introl eq_refl))).
  reflexivity.
Defined.

(** ** C10: the total cost of a record *)

(** C10: in every record the stored total cost is the 2-decimal rounding of
    average sale price * cost ratio * units sold taken with the unrounded
    average sale price, the stored unit cost being the rounding of average
    sale price * cost ratio and the stored average sale price the rounding
    of the mean (both 0 without Sale rows); the fields are rounded one by
    one, and there are tables on which the stored total cost differs from
    the stored unit cost times the units sold (three units at 99.99: 179.98
    against 3 * 59.99). *)
Theorem C10_total_cost_from_unrounded_price :
  (forall (L : library) (df : table) (out : DataFrame) (r : summary_row),
     process_report L df (Ok out) ->
     In r (records out) ->
     let sales :=
       select tx_doc_type SALE (select tx_article (article r) (rows df)) in
     let mean := mean_sale_price L sales in
     total_cost r
     = round2 L (mean * COST_PERCENTAGE * float_of_int64 (units_sold r))%float
     /\ unit_cost r = rounded_if_sold L sales (mean * COST_PERCENTAGE)
     /\ avg_sale_price r = rounded_if_sold L sales mean)
  /\ exists (df : table) (out : DataFrame) (r : summary_row),
       process_report numpy df (Ok out) /\ In r (records out)
       /\ total_cost r = 179.98%float
       /\ unit_cost r = 59.99%float
       /\ units_sold r = 3%Z
       /\ (total_cost r =? unit_cost r * float_of_int64 (units_sold r))%float
          = false.
Proof.
  split.
  - intros L df out r H Hr sales mean.
    pose proof (record_of_rows L df out r H Hr) as F. cbv zeta in F.
    fold sales mean in F.
    destruct F as [Fs [_ [Fa [Fu [Ft _]]]]].
    rewrite Fs. auto.
  - exists cost_table, cost_frame.
    eexists. split; [exact cost_outcome|]. split; [left; reflexivity|].
    repeat split; reflexivity.
Qed.

Lemma C10_total_cost_from_unrounded_price_witness :
  In cost_row (records cost_frame)
  /\ total_cost cost_row = 179.98%float /\ unit_cost cost_row = 59.99%float.
Proof.
  split; [left; reflexivity|].
  destruct (proj1 C10_total_cost_from_unrounded_price numpy cost_table
              cost_frame cost_row cost_outcome (or_introl eq_refl))
    as [Et [Ec _]].
  split; [rewrite Et|rewrite Ec]; reflexivity.
Defined.

(** ** C9: the empty table *)

Example empty_table_outcome :
  process_report numpy empty_table (Raise (KeyError "Продано (шт)")).
Proof. apply process_report_no_rows. reflexivity. Qed.

(** C9 does not hold of the code: on a table without rows the loop leaves
    [summary] empty, the frame built from it has no columns, and the sort
    raises [KeyError] for the sort column.  [process_report] has no other
    outcome, so no frame reaches [add_total_row] and no total row is
    computed; given the frame without columns, [add_total_row] would raise
    the same error. *)
Theorem C9_empty_table_raises (L : library) (brand_column : bool) :
  let df := {| has_brand := brand_column; rows := [] |} in
  summary L df = Ok []
  /\ columns (DataFrame_of []) = []
  /\ (forall res : result DataFrame,
        process_report L df res <-> res = Raise (KeyError "Продано (шт)"))
  /\ add_total_row L (DataFrame_of []) = Raise (KeyError "Продано (шт)").
Proof.
  repeat split; try reflexivity; apply process_report_no_rows.
Qed.

(** ** C8: a missing input file *)

Lemma print_to_app (w : world) (l1 l2 : list msg) :
  print_to (print_to w l1) l2 = print_to w (l1 ++ l2).
Proof. unfold print_to. cbn [fs console stdin today]. rewrite app_assoc. reflexivity. Qed.

Lemma print_all_spec (lines : list msg) (w : world) :
  print_all lines w = (print_to w lines, Ok tt).
Proof.
  revert w. induction lines as [|m ms IH]; intros w.
  - unfold print_all, io_ret, print_to. rewrite app_nil_r.
    destruct w; reflexivity.
  - cbn [print_all]. unfold io_bind, safe_print. rewrite IH, print_to_app.
    reflexivity.
Qed.




(** ** The empty table, seen from [main] *)

Lemma banner_argv (prog path : string) (rest : list string) (w : world) :
  exists lines,
    (banner >> get_input_file (prog :: path :: rest)) w
    = (print_to w lines, Ok path).
Proof.
  unfold io_bind, banner. rewrite print_all_spec.
  cbn [get_input_file]. unfold io_ret. eexists. reflexivity.
Qed.

Lemma load_report_sheet (path : string) (w : world) (t : table) :
  fs w path = Some (Spreadsheet t) ->
  exists lines, load_report path w = (print_to w lines, Ok t).
Proof.
  intros F. unfold load_report, io_bind, safe_print, read_excel, io_ret.
  cbn [fs print_to]. rewrite F. rewrite !print_to_app.
  eexists. reflexivity.
Qed.

(** Given a workbook whose sheet has no transaction, [main] reports the
    [KeyError] of the sort and returns; it writes no report. *)
Lemma main_on_empty_sheet (L : library) (prog path : string) (w : world)
    (t : table) :
  fs w path = Some (Spreadsheet t) ->
  rows t = [] ->
  forall w' r,
    main L [prog; path] w w' r ->
    r = Ok tt /\ fs w' = fs w
    /\ exists printed,
         console w'
         = printed
           ++ [TextError (nl ++ "[!] Ошибка при обработке: ")
                 (KeyError "Продано (шт)");
               Traceback (KeyError "Продано (шт)")].
Proof.
  intros F Z w' r M.
  destruct (banner_argv prog path [] w) as [l0 B].
  assert (F0 : fs (print_to w l0) path = Some (Spreadsheet t)) by exact F.
  destruct (load_report_sheet path _ t F0) as [l1 L0].
  rewrite print_to_app in L0.
  destruct t as [b rs]. cbn [rows] in Z. subst rs.
  inversion M as [w1 e E | w1 w2 f E X P | w1 w2 w3 f r0 r1 E X T H]; subst;
    rewrite B in E.
  - discriminate E.
  - injection E as <- <-. unfold path_exists in X. rewrite F0 in X.
    discriminate X.
  - injection E as <- <-.
    inversion T as [w4 e L1 | w4 w5 df e L1 P R | w4 w5 w6 df sdf r2 L1 P R K];
      subst; rewrite L0 in L1; try discriminate L1; injection L1 as <- <-.
    + rewrite print_all_spec, print_to_app in P. injection P as <-.
      apply process_report_no_rows in R. injection R as ->.
      unfold handler, io_bind, safe_print in H. rewrite print_to_app in H.
      injection H as <- <-.
      split; [reflexivity|]. split; [reflexivity|].
      unfold print_to. cbn [console]. eexists. reflexivity.
    + apply process_report_no_rows in R. discriminate R.
Qed.

(** * Further properties of the code *)

(** ** One record per article *)

(** X1: the frame [process_report] returns has one record for each distinct
    article of the table and no other record: the articles of its records
    are pairwise distinct, they are the articles of the table, and there
    are as many records as distinct articles. *)
Theorem process_report_one_record_per_article (L : library) (df : table)
    (out : DataFrame) :
  process_report L df (Ok out) ->
  NoDup (map article (records out))
  /\ (forall a, In a (map article (records out))
                <-> In a (map tx_article (rows df)))
  /\ List.length (records out)
     = List.length (unique (map tx_article (rows df)))
  /\ Permutation (unique (map tx_article (rows df)))
       (map article (records out)).
Proof.
  intros H.
  destruct (process_report_Ok_inv df out H) as [data [E [_ [_ [P _]]]]].
  pose proof (summary_articles df data E) as A.
  pose proof (Permutation_map article P) as PA. rewrite A in PA.
  split; [apply (Permutation_NoDup PA), NoDup_unique|].
  split.
  - intros a. rewrite <- (In_unique a (map tx_article (rows df))). split.
    + apply Permutation_in. apply Permutation_sym. exact PA.
    + apply Permutation_in. exact PA.
  - split; [|exact PA].
    rewrite <- (Permutation_length P). apply (summary_length df data E).
Qed.

Lemma process_report_one_record_per_article_witness :
  List.length (records shop_frame) = 2%nat
  /\ Permutation ["A"; "B"]%string (map article (records shop_frame)).
Proof.
  destruct (process_report_one_record_per_article numpy shop_table shop_frame
              shop_outcome) as [_ [_ [L P]]].
  split; [exact L|exact P].
Defined.

(** ** An article without sales *)

(** X3: the record of an article that has no Sale row holds 0 units sold
    and an average sale price and a unit cost of 0; its total cost is the
    rounding of the float 0.0, its total expenses the rounding of
    0.0 + fees + penalties, and its net profit the rounding of the
    remittances minus that sum: such a record still carries what its other
    rows cost and brought. *)
Theorem record_without_sales (L : library) (df : table) (out : DataFrame)
    (r : summary_row) :
  process_report L df (Ok out) ->
  In r (records out) ->
  let article_data := select tx_article (article r) (rows df) in
  let fees := series_sum L (map tx_delivery article_data) in
  let fines := series_sum L (map tx_penalty article_data) in
  let income := series_sum L (map tx_remittance article_data) in
  select tx_doc_type SALE article_data = [] ->
  units_sold r = 0%Z
  /\ avg_sale_price r = 0%float /\ unit_cost r = 0%float
  /\ total_cost r = round2 L 0
  /\ total_expenses r = round2 L (0 + fees + fines)
  /\ net_profit r = round2 L (income - (0 + fees + fines)).
Proof.
  intros H Hr article_data fees fines income S.
  pose proof (record_of_rows L df out r H Hr) as F. cbv zeta in F.
  fold article_data fees fines income in F. rewrite S in F.
  change (mean_sale_price L [] * COST_PERCENTAGE
          * float_of_int64 (sumZ (map tx_qty [])))%float with 0%float in F.
  destruct F as [Fs [_ [Fa [Fu [Ft [_ [_ [Fe [_ [Fn _]]]]]]]]]].
  repeat split; assumption.
Qed.

Lemma record_without_sales_witness :
  In shop_row_B (records shop_frame)
  /\ units_sold shop_row_B = 0%Z /\ net_profit shop_row_B = (-50)%float.
Proof.
  split; [right; left; reflexivity|].
  destruct (record_without_sales numpy shop_table shop_frame shop_row_B
              shop_outcome (or_intror (or_introl eq_refl)) eq_refl)
    as [U [_ [_ [_ [_ N]]]]].
  split; [exact U|]. rewrite N. reflexivity.
Defined.

(** ** The totals of the quantities *)

Lemma Zsum_map_plus {A : Type} (f g : A -> Z) (l : list A) :
  Zsum (map (fun x => (f x + g x)%Z) l)
  = (Zsum (map f l) + Zsum (map g l))%Z.
Proof. induction l as [|x l IH]; simpl; lia. Qed.

Lemma Zsum_map_zero {A : Type} (l : list A) :
  Zsum (map (fun _ => 0%Z) l) = 0%Z.
Proof. induction l as [|x l IH]; simpl; lia. Qed.

Lemma Zsum_perm (l l' : list Z) : Permutation l l' -> Zsum l = Zsum l'.
Proof.
  induction 1 as [|x l l' _ IH|x y l|l l' l'' _ IH1 _ IH2]; simpl; lia.
Qed.

Lemma sumZ_perm (l l' : list Z) : Permutation l l' -> sumZ l = sumZ l'.
Proof. intros P. unfold sumZ. rewrite (Zsum_perm _ _ P). reflexivity. Qed.

(** Over distinct keys, only the key itself counts. *)
Lemma Zsum_one_key (ks : list string) (a : string) (v : Z) :
  NoDup ks -> In a ks ->
  Zsum (map (fun k => if String.eqb a k then v else 0%Z) ks) = v.
Proof.
  induction 1 as [|k ks Nk _ IH]; simpl; [tauto|].
  intros [->|I].
  - rewrite String.eqb_refl.
    assert (Z : Zsum (map (fun k => if String.eqb a k then v else 0%Z) ks)
                = 0%Z).
    { rewrite (map_ext_in _ (fun _ => 0%Z)); [apply Zsum_map_zero|].
      intros k Hk.
      destruct (String.eqb_spec a k) as [->|_]; [tauto|reflexivity]. }
    lia.
  - destruct (String.eqb_spec a k) as [->|_]; [tauto|].
    rewrite (IH I). lia.
Qed.

(** Summing article by article is summing over the table. *)
Lemma Zsum_by_article (f : transaction -> Z) (l : list transaction)
    (ks : list string) :
  NoDup ks -> (forall r, In r l -> In (tx_article r) ks) ->
  Zsum (map (fun k => Zsum (map f (select tx_article k l))) ks)
  = Zsum (map f l).
Proof.
  intros N. induction l as [|r l IH]; intros C.
  - simpl. apply Zsum_map_zero.
  - assert (E : forall k,
               Zsum (map f (select tx_article k (r :: l)))
               = ((if String.eqb (tx_article r) k then f r else 0)
                  + Zsum (map f (select tx_article k l)))%Z).
    { intros k. unfold select. simpl.
      destruct (String.eqb (tx_article r) k); simpl; lia. }
    rewrite (map_ext _ _ E), Zsum_map_plus, IH.
    + rewrite Zsum_one_key; [reflexivity|exact N|].
      apply C. left. reflexivity.
    + intros r' Hr'. apply C. right. exact Hr'.
Qed.

Lemma select_comm (c1 c2 : transaction -> string) (v1 v2 : string)
    (l : list transaction) :
  select c1 v1 (select c2 v2 l) = select c2 v2 (select c1 v1 l).
Proof.
  unfold select. induction l as [|r l IH]; simpl; [reflexivity|].
  destruct (String.eqb (c2 r) v2) eqn:E2, (String.eqb (c1 r) v1) eqn:E1;
    simpl; rewrite ?E1, ?E2, IH; reflexivity.
Qed.

(** The int64 sum of the sums of the articles is the int64 sum over the
    table: wrapping around loses nothing that the last wrap would keep. *)
Lemma units_by_doc_type (df : table) (doc : string) :
  sumZ (map (fun a => sumZ (map tx_qty
                              (select tx_doc_type doc
                                 (select tx_article a (rows df)))))
          (unique (map tx_article (rows df))))
  = sumZ (map tx_qty (select tx_doc_type doc (rows df))).
Proof.
  unfold sumZ at 2.
  rewrite (sumZ_wrapped
             (fun a => Zsum (map tx_qty
                               (select tx_doc_type doc
                                  (select tx_article a (rows df)))))).
  unfold sumZ. f_equal.
  rewrite <- (Zsum_by_article tx_qty (select tx_doc_type doc (rows df))
                (unique (map tx_article (rows df)))).
  - f_equal. apply map_ext. intros a. rewrite select_comm. reflexivity.
  - apply NoDup_unique.
  - intros r Hr. apply In_unique, in_map. apply select_In in Hr. tauto.
Qed.

Lemma total_of_units (L : library) (df : table) (out : DataFrame) :
  process_report L df (Ok out) ->
  t_units_sold (total_of L out)
  = sumZ (map tx_qty (select tx_doc_type SALE (rows df)))
  /\ t_units_returned (total_of L out)
     = sumZ (map tx_qty (select tx_doc_type RETURN (rows df))).
Proof.
  intros H.
  destruct (process_report_Ok_inv df out H) as [data [E [_ [C [P _]]]]].
  cbn [total_of t_units_sold t_units_returned].
  rewrite <- (sumZ_perm _ _ (Permutation_map units_sold P)).
  rewrite <- (sumZ_perm _ _ (Permutation_map units_returned P)).
  rewrite (summary_column df data units_sold
             (fun a => sumZ (map tx_qty
                               (select tx_doc_type SALE
                                  (select tx_article a (rows df)))))
             E (fun _ _ _ => eq_refl)).
  rewrite (summary_column df data units_returned
             (fun a => sumZ (map tx_qty
                               (select tx_doc_type RETURN
                                  (select tx_article a (rows df)))))
             E (fun _ _ _ => eq_refl)).
  split; apply units_by_doc_type.
Qed.

(** X4: run after [process_report], [add_total_row] never raises, and the
    units sold and returned of its total row are the int64 sums of the
    quantity column over all Sale rows and over all Return rows of the
    input table: grouping by article and sorting lose no row and count none
    twice, and the sums that wrapped around article by article wrap to the
    same int64 as the sum over the table. *)
Theorem total_units_of_the_table (L : library) (df : table) (out : DataFrame) :
  process_report L df (Ok out) ->
  exists t : total_row,
    add_total_row L out = Ok (map Data (records out) ++ [Total t])
    /\ t_units_sold t = sumZ (map tx_qty (select tx_doc_type SALE (rows df)))
    /\ t_units_returned t
       = sumZ (map tx_qty (select tx_doc_type RETURN (rows df))).
Proof.
  intros H.
  destruct (process_report_frame df out H) as [C N].
  exists (total_of L out). split; [apply add_total_row_Ok; assumption|].
  apply total_of_units. exact H.
Qed.

Lemma total_units_of_the_table_witness :
  exists t : total_row,
    add_total_row numpy shop_frame
    = Ok (map Data (records shop_frame) ++ [Total t])
    /\ t_units_sold t = 10%Z /\ t_units_returned t = 3%Z.
Proof.
  destruct (total_units_of_the_table numpy shop_table shop_frame shop_outcome)
    as [t [E [S R]]].
  exists t. split; [exact E|]. split; [exact S|exact R].
Defined.

(** ** The columns [add_total_row] needs *)


(** ** Quantities that overflow *)

(** X17: the quantities are added as int64.  Two Sale rows of 2^62 units of
    one article give a record with -2^63 units sold and, at a price of 1, a
    negative total cost; the total row holds the same -2^63. *)
Theorem units_sold_wrap_around :
  let df := {| has_brand := false;
               rows := [ tx "A" SALE (2 ^ 62) 1 0 0 0;
                         tx "A" SALE (2 ^ 62) 1 0 0 0 ] |} in
  exists out : DataFrame,
    process_report numpy df (Ok out)
    /\ exists (r : summary_row) (t : total_row),
         records out = [r]
         /\ units_sold r = (- 2 ^ 63)%Z
         /\ (total_cost r <? 0)%float = true
         /\ add_total_row numpy out = Ok [Data r; Total t]
         /\ t_units_sold t = (- 2 ^ 63)%Z.
Proof.
  eexists. split; [sample_outcome|].
  eexists. eexists. repeat split; reflexivity.
Qed.
(** ** The path of the report *)

Lemma list_ascii_of_string_app (a b : string) :
  list_ascii_of_string (a ++ b)
  = list_ascii_of_string a ++ list_ascii_of_string b.
Proof. induction a as [|c a IH]; simpl; [reflexivity|]. rewrite IH. reflexivity. Qed.

Lemma rsplit_Some (c : ascii) (s before after : list ascii) :
  rsplit c s = Some (before, after) -> s = before ++ c :: after.
Proof.
  revert before after. induction s as [|x s IH]; intros before after; simpl.
  - discriminate.
  - destruct (rsplit c s) as [[b a]|].
    + intros E. injection E as <- <-. rewrite (IH b a eq_refl). reflexivity.
    + destruct (Ascii.eqb_spec x c) as [->|_]; [|discriminate].
      intros E. injection E as <- <-. reflexivity.
Qed.

Lemma rsplit_None (c : ascii) (s : list ascii) :
  ~ In c s -> rsplit c s = None.
Proof.
  induction s as [|x s IH]; simpl; [reflexivity|].
  intros N. rewrite IH by tauto.
  destruct (Ascii.eqb_spec x c) as [E|_]; [tauto|reflexivity].
Qed.

Lemma rsplit_last (c : ascii) (before after : list ascii) :
  ~ In c after -> rsplit c (before ++ c :: after) = Some (before, after).
Proof.
  intros N. induction before as [|x b IH]; simpl.
  - rewrite (rsplit_None c after N), Ascii.eqb_refl. reflexivity.
  - rewrite IH. reflexivity.
Qed.

Lemma stem_length (name : list ascii) :
  (List.length (stem name) <= List.length name)%nat.
Proof.
  unfold stem. destruct (rsplit dot name) as [[b a]|] eqn:E; [|lia].
  apply rsplit_Some in E. destruct b, a; try lia.
  subst name. rewrite length_app. simpl. lia.
Qed.

(** The name of the report is never the name of the input. *)
Lemma report_name_differs (prefix date : string) (name : list ascii) :
  list_ascii_of_string
    (prefix ++ string_of_list_ascii (stem name) ++ "_" ++ date ++ ".xlsx")
  <> name.
Proof.
  intros E.
  assert (S : stem name
              = list_ascii_of_string prefix ++ stem name
                ++ "_"%char :: list_ascii_of_string date).
  { rewrite <- E at 1. rewrite !list_ascii_of_string_app.
    rewrite list_ascii_of_string_of_list_ascii.
    change (list_ascii_of_string ".xlsx")
      with (dot :: list_ascii_of_string "xlsx").
    change (list_ascii_of_string "_") with ["_"%char].
    replace (list_ascii_of_string prefix ++ stem name ++ ["_"%char]
             ++ list_ascii_of_string date ++ dot :: list_ascii_of_string "xlsx")
      with ((list_ascii_of_string prefix ++ stem name
             ++ "_"%char :: list_ascii_of_string date)
            ++ dot :: list_ascii_of_string "xlsx")
      by (rewrite <- !app_assoc; reflexivity).
    unfold stem at 1. rewrite rsplit_last.
    - destruct (list_ascii_of_string prefix ++ stem name
                ++ "_"%char :: list_ascii_of_string date) eqn:D.
      + apply (f_equal (@List.length ascii)) in D.
        rewrite !length_app in D. simpl in D. lia.
      + reflexivity.
    - vm_compute. intuition discriminate. }
  apply (f_equal (@List.length ascii)) in S.
  rewrite !length_app in S. simpl in S. lia.
Qed.

Lemma cons_eq_inv {A : Type} (x : A) (l l' : list A) :
  x :: l = x :: l' -> l = l'.
Proof. intros E. injection E as E. exact E. Qed.

(** The report is never written over the input file. *)
Lemma output_path_differs (input_path date : string) :
  output_path_of input_path date <> input_path.
Proof.
  intros E. apply (f_equal list_ascii_of_string) in E. revert E.
  unfold output_path_of. cbv beta zeta.
  set (prefix := "Сводный_отчет_"%string).
  destruct (rsplit slash (list_ascii_of_string input_path))
    as [[[|x parent] name]|] eqn:R.
  - apply rsplit_Some in R. rewrite R, list_ascii_of_string_app.
    change (list_ascii_of_string "/") with [slash].
    intros E. apply (cons_eq_inv slash) in E. revert E.
    apply report_name_differs.
  - apply rsplit_Some in R. rewrite R, !list_ascii_of_string_app.
    rewrite list_ascii_of_string_of_list_ascii.
    change (list_ascii_of_string "/") with [slash].
    intros E. apply app_inv_head in E. apply (cons_eq_inv slash) in E.
    revert E. rewrite <- !list_ascii_of_string_app.
    apply report_name_differs.
  - apply report_name_differs.
Qed.

(** ** The runs of [main] *)

Lemma get_input_file_cases (argv : list string) (w w1 : world)
    (r : result string) :
  (banner >> get_input_file argv) w = (w1, r) ->
  fs w1 = fs w /\ today w1 = today w
  /\ match r with
     | Ok _ => True
     | Raise e => e = EOFError /\ (List.length argv < 2)%nat /\ stdin w = []
     end.
Proof.
  unfold banner, get_input_file, io_bind, print_all, safe_print, input,
    io_ret.
  destruct argv as [|prog [|input_file rest]]; simpl;
    try (destruct (stdin w) eqn:S; simpl);
    intros E; injection E as <- <-; repeat split; lia.
Qed.

Lemma load_report_cases (path : string) (w : world) :
  exists lines,
    match fs w path with
    | Some (Spreadsheet t) => load_report path w = (print_to w lines, Ok t)
    | _ => exists e, load_report path w = (print_to w lines, Raise e)
    end.
Proof.
  unfold load_report, io_bind, safe_print, read_excel, io_ret, io_raise.
  cbn [fs print_to].
  destruct (fs w path) as [[t|r|]|]; rewrite ?print_to_app; eauto.
Qed.

Lemma finish_Ok (L : library) (out : DataFrame) (path : string) (w : world) :
  columns out = report_columns -> records out <> [] ->
  exists w3,
    finish L out path w = (w3, Ok tt)
    /\ forall p,
         fs w3 p
         = if String.eqb p path
           then Some (ReportBook (map Data (records out)
                                  ++ [Total (total_of L out)]))
           else fs w p.
Proof.
  intros C N. unfold finish, io_bind, lift.
  rewrite (add_total_row_Ok L out C N).
  unfold create_formatted_excel, print_summary, io_bind, lift, safe_print,
    save.
  rewrite iloc_last_app, print_all_spec.
  eexists. split; [reflexivity|]. intros p. reflexivity.
Qed.

Lemma handler_fs (r : result unit) (w w' : world) (r' : result unit) :
  handler r w = (w', r') -> r' = Ok tt /\ fs w' = fs w.
Proof.
  unfold handler, io_bind, safe_print, io_ret.
  destruct r as [[]|e]; intros E; injection E as <- <-; auto.
Qed.

(** What a run of [main] can be: an [EOFError] at the prompt, a path that
    names no file, a file that gives no report, or a report written. *)
Lemma main_inv (L : library) (argv : list string) (w w' : world)
    (r : result unit) :
  main L argv w w' r ->
  (r = Raise EOFError /\ (List.length argv < 2)%nat /\ stdin w = []
   /\ fs w' = fs w)
  \/ (r = Ok tt
      /\ exists (input_file : string) (w1 : world),
           (banner >> get_input_file argv) w = (w1, Ok input_file)
           /\ ((fs w input_file = None /\ fs w' = fs w)
               \/ (exists f, fs w input_file = Some f /\ fs w' = fs w
                             /\ forall t, f = Spreadsheet t -> rows t = [])
               \/ (exists t out,
                     fs w input_file = Some (Spreadsheet t)
                     /\ process_report L t (Ok out)
                     /\ forall p,
                          fs w' p
                          = if String.eqb p
                                 (output_path_of input_file (today w))
                            then Some (ReportBook
                                         (map Data (records out)
                                          ++ [Total (total_of L out)]))
                            else fs w p))).
Proof.
  intros M.
  inversion M as [w1 e E | w1 w2 f E X P | w1 w2 w3 f r0 r1 E X T H]; subst.
  - left. destruct (get_input_file_cases argv w w' _ E) as [F [_ [-> [Len S]]]].
    auto.
  - right. destruct (get_input_file_cases argv w w1 _ E) as [F [_ _]].
    injection P as <-. split; [reflexivity|]. exists f, w1.
    split; [exact E|]. left. unfold path_exists in X. rewrite F in X.
    destruct (fs w f); [discriminate X|]. split; [reflexivity|exact F].
  - right. destruct (get_input_file_cases argv w w1 _ E) as [F [D _]].
    destruct (handler_fs r0 w2 w' r H) as [-> F'].
    split; [reflexivity|]. exists f, w1. split; [exact E|]. right.
    destruct (load_report_cases f w1) as [lines L0].
    rewrite F in L0.
    inversion T as [w4 e L' | w4 w5 df e L' P R | w4 w5 w6 df out r2 L' P R K];
      subst.
    + left. destruct (fs w f) as [[t|rb|]|] eqn:Ff.
      * rewrite L0 in L'. discriminate L'.
      * exists (ReportBook rb). destruct L0 as [e' L0]. rewrite L0 in L'.
        injection L' as <- _. repeat split; [rewrite F'; exact F|discriminate].
      * exists OtherFile. destruct L0 as [e' L0]. rewrite L0 in L'.
        injection L' as <- _. repeat split; [rewrite F'; exact F|discriminate].
      * unfold path_exists in X. rewrite F, Ff in X. discriminate X.
    + left. destruct (fs w f) as [[t|rb|]|] eqn:Ff;
        [|destruct L0 as [e' L0]; rewrite L0 in L'; discriminate L'..].
      rewrite L0 in L'. injection L' as <- <-.
      rewrite print_all_spec in P. injection P as <-.
      exists (Spreadsheet t). repeat split; [rewrite F'; exact F|].
      intros t' Et. injection Et as <-.
      apply (process_report_Raise_inv _ _ R).
    + right. destruct (fs w f) as [[t|rb|]|] eqn:Ff;
        [|destruct L0 as [e' L0]; rewrite L0 in L'; discriminate L'..].
      rewrite L0 in L'. injection L' as <- <-.
      rewrite print_all_spec in P. injection P as <-.
      destruct (process_report_frame t out R) as [C N].
      destruct (finish_Ok L out (output_path_of f (today w1))
                  (print_to (print_to w1 lines) (process_report_prints t))
                  C N)
        as [w7 [K' Fs]].
      rewrite K' in K. injection K as <- <-.
      exists t, out. split; [reflexivity|]. split; [exact R|].
      intros p. rewrite F', Fs, D. cbn [print_to fs]. rewrite F. reflexivity.
Qed.

(** X8: only the [EOFError] of the prompt leaves [main]: every other run
    returns normally, whatever the file holds, and a run that is given the
    path as an argument, or a line to read, always returns normally.  A run
    that ends in the [EOFError] has changed no file. *)
Theorem main_raises_only_EOFError (L : library) (argv : list string)
    (w w' : world) (r : result unit) :
  main L argv w w' r ->
  r = Ok tt
  \/ (r = Raise EOFError /\ (List.length argv < 2)%nat /\ stdin w = []
      /\ fs w' = fs w).
Proof.
  intros M. destruct (main_inv L argv w w' r M) as [H|[H _]]; auto.
Qed.

Lemma main_raises_only_EOFError_witness :
  exists w' : world,
    main numpy ["convert_wb_report.py"]%string bare_world w' (Raise EOFError)
    /\ fs w' = fs bare_world.
Proof.
  assert (M : main numpy ["convert_wb_report.py"]%string bare_world
                (fst ((banner >> get_input_file ["convert_wb_report.py"]%string)
                        bare_world))
                (Raise EOFError)).
  { apply main_no_input. reflexivity. }
  eexists. split; [exact M|].
  destruct (main_raises_only_EOFError _ _ _ _ _ M) as [E|[_ [_ [_ F]]]].
  - discriminate E.
  - exact F.
Defined.

(** X9: a run of [main] changes at most one path, the path of the report, and
    only by writing a report there; the report path is never the path of
    the input, so the input file and every other file are as they were. *)
Theorem main_keeps_the_files (L : library) (argv : list string)
    (w w' : world) (r : result unit) (p : string) :
  main L argv w w' r ->
  fs w' p = fs w p
  \/ exists (input_file : string) (w1 : world) (report : list report_row),
       (banner >> get_input_file argv) w = (w1, Ok input_file)
       /\ p = output_path_of input_file (today w)
       /\ p <> input_file
       /\ fs w' input_file = fs w input_file
       /\ fs w' p = Some (ReportBook report).
Proof.
  intros M.
  destruct (main_inv L argv w w' r M)
    as [[_ [_ [_ F]]]|[_ [f [w1 [E [[_ F]|[[x [_ [F _]]]|[t [out [Ff [R Fs]]]]]]]]]]];
    try (left; rewrite F; reflexivity).
  destruct (String.eqb_spec p (output_path_of f (today w))) as [->|N].
  - right. exists f, w1. eexists. split; [exact E|]. split; [reflexivity|].
    split; [apply output_path_differs|]. split.
    + rewrite Fs. 
      destruct (String.eqb_spec f (output_path_of f (today w))) as [X|_];
        [|reflexivity].
      symmetry in X. apply output_path_differs in X. destruct X.
    + rewrite Fs, String.eqb_refl. reflexivity.
  - left. rewrite Fs. apply String.eqb_neq in N. rewrite N. reflexivity.
Qed.



(** ** The path typed at the prompt *)

Lemma lstrip_all (p : ascii -> bool) (l s : list ascii) :
  Forall (fun c => p c = true) l -> lstrip p (l ++ s) = lstrip p s.
Proof.
  induction 1 as [|c l Hc _ IH]; simpl; [reflexivity|].
  rewrite Hc. exact IH.
Qed.

Lemma lstrip_clean (p : ascii -> bool) (s : list ascii) :
  starts_clean p s -> lstrip p s = s.
Proof. destruct s as [|c s]; simpl; [reflexivity|]. intros ->. reflexivity. Qed.

Lemma starts_clean_app (p : ascii -> bool) (s r : list ascii) :
  s <> [] -> starts_clean p s -> starts_clean p (s ++ r).
Proof. destruct s; simpl; [congruence|auto]. Qed.

(** Stripping removes the padding at both ends and nothing else. *)
Lemma strip_padding (p : ascii -> bool) (l core r : list ascii) :
  Forall (fun c => p c = true) l -> Forall (fun c => p c = true) r ->
  core <> [] -> starts_clean p core -> starts_clean p (rev core) ->
  strip p (string_of_list_ascii (l ++ core ++ r)) = string_of_list_ascii core.
Proof.
  intros Hl Hr N C1 C2. unfold strip.
  rewrite list_ascii_of_string_of_list_ascii, (lstrip_all p l _ Hl).
  rewrite (lstrip_clean p (core ++ r)) by (apply starts_clean_app; assumption).
  rewrite rev_app_distr, (lstrip_all p (rev r)).
  - rewrite (lstrip_clean p _ C2), rev_involutive. reflexivity.
  - apply Forall_rev. exact Hr.
Qed.

Lemma quote_is_no_space (c : ascii) : is_quote c = true -> is_space c = false.
Proof.
  unfold is_quote, is_space. cbv zeta.
  rewrite orb_true_iff, !Nat.eqb_eq. intros [->| ->]; reflexivity.
Qed.

Lemma starts_clean_quotes (q s : list ascii) :
  Forall (fun c => is_quote c = true) q ->
  starts_clean is_space s -> starts_clean is_space (q ++ s).
Proof.
  intros Q C. destruct Q as [|c q Hc _]; simpl; [exact C|].
  apply quote_is_no_space. exact Hc.
Qed.

Lemma starts_clean_padding (l : list ascii) :
  starts_clean is_padding l ->
  starts_clean is_space l /\ starts_clean is_quote l.
Proof.
  destruct l as [|c l]; simpl; [tauto|]. unfold is_padding.
  rewrite !orb_false_iff. tauto.
Qed.

(** X11: asked for the path, the program takes the typed line without the white
    space around it and then without the quotes around it: a path that
    begins and ends with an ASCII character other than white space or a
    quote comes back as it is, however it was padded with blanks and
    wrapped in quotes. *)
Theorem typed_path_is_unquoted (prog : string) (w : world)
    (spaces1 quotes1 path quotes2 spaces2 : list ascii) (rest : list string) :
  Forall (fun c => is_space c = true) spaces1 ->
  Forall (fun c => is_space c = true) spaces2 ->
  Forall (fun c => is_quote c = true) quotes1 ->
  Forall (fun c => is_quote c = true) quotes2 ->
  path <> [] ->
  starts_clean is_padding path -> starts_clean is_padding (rev path) ->
  stdin w
  = string_of_list_ascii (spaces1 ++ quotes1 ++ path ++ quotes2 ++ spaces2)
    :: rest ->
  exists w1,
    get_input_file [prog] w = (w1, Ok (string_of_list_ascii path))
    /\ stdin w1 = rest.
Proof.
  intros S1 S2 Q1 Q2 N C C' E.
  destruct (starts_clean_padding _ C) as [Cs Cq].
  destruct (starts_clean_padding _ C') as [Cs' Cq'].
  unfold get_input_file, io_bind, safe_print, input, io_ret.
  cbn [print_to stdin]. rewrite E.
  assert (S : strip is_quote
                (strip is_space
                   (string_of_list_ascii
                      (spaces1 ++ quotes1 ++ path ++ quotes2 ++ spaces2)))
              = string_of_list_ascii path);
    [|rewrite S; eexists; split; reflexivity].
  replace (spaces1 ++ quotes1 ++ path ++ quotes2 ++ spaces2)
    with (spaces1 ++ (quotes1 ++ path ++ quotes2) ++ spaces2)
    by (rewrite <- !app_assoc; reflexivity).
  rewrite (strip_padding is_space); try assumption.
  - apply strip_padding; assumption.
  - destruct path; [congruence|]. destruct quotes1; discriminate.
  - apply starts_clean_quotes; [exact Q1|].
    apply starts_clean_app; assumption.
  - rewrite !rev_app_distr, <- app_assoc.
    apply starts_clean_quotes; [apply Forall_rev; exact Q2|].
    apply starts_clean_app; [|exact Cs'].
    intros Z. apply (f_equal (@rev ascii)) in Z.
    rewrite rev_involutive in Z. exact (N Z).
Qed.

Lemma typed_path_is_unquoted_witness :
  exists w1 : world,
    get_input_file ["convert_wb_report.py"]%string
      {| fs := fun _ => None; console := [];
         stdin := ["  'my report.xlsx' "]%string; today := "01.02.2025" |}
    = (w1, Ok "my report.xlsx"%string)
    /\ stdin w1 = [].
Proof.
  apply (typed_path_is_unquoted "convert_wb_report.py" _
           (list_ascii_of_string "  ") (list_ascii_of_string "'")
           (list_ascii_of_string "my report.xlsx")
           (list_ascii_of_string "'") (list_ascii_of_string " ") []);
    try (repeat constructor); try discriminate; reflexivity.
Defined.

(** ** The progress lines *)

Lemma succ_div_50 (n : nat) :
  (if (S n mod 50 =? 0)%nat
   then S n / 50 = S (n / 50) /\ S n = 50 * S (n / 50)
   else S n / 50 = n / 50)%nat.
Proof.
  pose proof (Nat.div_mod_eq n 50) as Dn.
  pose proof (Nat.mod_upper_bound n 50) as Bn.
  pose proof (Nat.div_mod_eq (S n) 50) as Ds.
  pose proof (Nat.mod_upper_bound (S n) 50) as Bs.
  destruct (Nat.eqb_spec (S n mod 50) 0) as [Z|Z]; lia.
Qed.

Lemma every_50th {A : Type} (f : nat -> A) (n : nat) :
  flat_map (fun k => if (k mod 50 =? 0)%nat then [f k] else []) (seq 1 n)
  = map (fun j => f (50 * j)%nat) (seq 1 (n / 50)).
Proof.
  induction n as [|n IH].
  - reflexivity.
  - rewrite seq_S, flat_map_app, IH. cbn [flat_map Nat.add].
    pose proof (succ_div_50 n) as D.
    destruct (S n mod 50 =? 0)%nat.
    + destruct D as [-> E]. rewrite seq_S, map_app, app_nil_r.
      cbn [map Nat.add]. rewrite <- E. reflexivity.
    + rewrite D, !app_nil_r. reflexivity.
Qed.

(** X7: [process_report] prints its opening line, then one progress line after
    the 50th, the 100th, ... article and after no other, then its closing
    line with the number of articles: with fewer than 50 articles no
    progress line is printed. *)
Theorem progress_every_50_articles (df : table) :
  let total := List.length (unique (map tx_article (rows df))) in
  process_report_prints df
  = [Text (nl ++ "[>] Обработка данных...")]
    ++ map (fun j => TextOf "    Обработано: " (Z.of_nat (50 * j))
                       (Z.of_nat total) " артикулов")
         (seq 1 (total / 50))
    ++ [TextOf "[+] Обработано артикулов: " (Z.of_nat total)
          (Z.of_nat total) ""].
Proof.
  intros total. unfold process_report_prints. fold total.
  f_equal. f_equal.
  apply (every_50th (fun k => TextOf "    Обработано: " (Z.of_nat k)
                                (Z.of_nat total) " артикулов")).
Qed.

(** ** The fallback of [safe_print] *)

Lemma ascii_text_chars (text : string) :
  list_ascii_of_string (ascii_text text)
  = filter is_ascii (list_ascii_of_string text).
Proof. unfold ascii_text. apply list_ascii_of_string_of_list_ascii. Qed.

Lemma filter_all {A : Type} (p : A -> bool) (l : list A) :
  forallb p l = true -> filter p l = l.
Proof.
  induction l as [|x l IH]; simpl; [reflexivity|].
  rewrite andb_true_iff. intros [-> H]. rewrite IH by exact H. reflexivity.
Qed.

Lemma forallb_filter {A : Type} (p : A -> bool) (l : list A) :
  forallb p (filter p l) = true.
Proof.
  induction l as [|x l IH]; simpl; [reflexivity|].
  destruct (p x) eqn:E; simpl; rewrite ?E; exact IH.
Qed.

(** X12: on a console that encodes at least the ASCII strings, [safe_print]
    never raises: it prints the text when the console encodes it, and
    otherwise the ASCII characters of the text, in their order.  A text
    that is all ASCII is printed unchanged on such a console. *)
Theorem safe_print_never_raises (encodes : string -> bool) (text : string) :
  (forall s, ascii_console s = true -> encodes s = true) ->
  exists out : string,
    safe_print_output encodes text = Some out
    /\ (encodes text = true -> out = text)
    /\ (encodes text = false ->
        list_ascii_of_string out
        = filter is_ascii (list_ascii_of_string text)
        /\ ascii_console out = true)
    /\ (ascii_console text = true -> out = text).
Proof.
  intros A. unfold safe_print_output.
  assert (C : ascii_console (ascii_text text) = true).
  { unfold ascii_console. rewrite ascii_text_chars. apply forallb_filter. }
  destruct (encodes text) eqn:E.
  - exists text. repeat split; try reflexivity; discriminate.
  - rewrite (A _ C). exists (ascii_text text).
    repeat split; try discriminate.
    + apply ascii_text_chars.
    + exact C.
    + intros T. rewrite (A _ T) in E. discriminate E.
Qed.

Lemma safe_print_never_raises_witness :
  safe_print_output ascii_console "[!] Ошибка: Файл не найден: a.xlsx"
  = Some "[!] :   : a.xlsx"%string.
Proof.
  destruct (safe_print_never_raises ascii_console
              "[!] Ошибка: Файл не найден: a.xlsx" (fun _ H => H))
    as [out [E [_ [F _]]]].
  rewrite E. f_equal.
  rewrite <- (string_of_list_ascii_of_string out).
  rewrite (proj1 (F eq_refl)). reflexivity.
Defined.

(** ** The sheet *)

Lemma nth_error_enumerate {A : Type} (l : list A) (start i : nat) :
  nth_error (enumerate l start) i
  = option_map (fun x => ((start + i)%nat, x)) (nth_error l i).
Proof.
  unfold enumerate. revert start i.
  induction l as [|x l IH]; intros start [|i]; simpl; try reflexivity.
  - rewrite Nat.add_0_r. reflexivity.
  - rewrite IH. replace (start + S i)%nat with (S start + i)%nat by lia.
    reflexivity.
Qed.


(** The cell at row [4 + i], column [1 + j] of the sheet. *)
Lemma sheet_cell_at_Some (df : list report_row) (i j : nat) (c : sheet_cell) :
  sheet_cell_at df i j = Some c <->
  exists r v, nth_error df i = Some r /\ nth_error (row_values r) j = Some v
              /\ c = style_cell (List.length df) (4 + i) (1 + j) r v.
Proof.
  unfold sheet_cell_at, sheet_rows.
  rewrite nth_error_map, nth_error_enumerate.
  destruct (nth_error df i) as [r|] eqn:Er; cbn [option_map].
  - rewrite nth_error_map, nth_error_enumerate.
    destruct (nth_error (row_values r) j) as [v|] eqn:Ev; cbn [option_map].
    + split.
      * intros E. injection E as <-. exists r, v. auto.
      * intros [r' [v' [Er' [Ev' ->]]]]. injection Er' as <-.
        rewrite Ev in Ev'. injection Ev' as <-. reflexivity.
    + split; [discriminate|]. intros [r' [v' [Er' [Ev' _]]]].
      injection Er' as <-. rewrite Ev in Ev'. discriminate Ev'.
  - split; [discriminate|]. intros [r' [v' [Er' _]]]. discriminate Er'.
Qed.

Lemma row_values_length (r : report_row) : List.length (row_values r) = 14%nat.
Proof. destruct r; reflexivity. Qed.


(** X14: only the last row of the sheet is shaded, and all its cells are bold:
    the test [row_idx == len(df) + 3] picks the row of the total, the last
    of the frame, and no other.  In the other rows a cell is bold only when
    it is the net profit cell of a row whose net profit is below or above
    zero. *)
Theorem only_the_last_row_is_shaded (df : list report_row) (i j : nat)
    (r : report_row) (c : sheet_cell) :
  nth_error df i = Some r ->
  sheet_cell_at df i j = Some c ->
  (cell_fill c = Some "E7E6E6"%string <-> S i = List.length df)
  /\ (cell_fill c = None <-> S i <> List.length df)
  /\ (S i = List.length df -> bold (cell_font c) = true)
  /\ (S i <> List.length df ->
      (bold (cell_font c) = true
       <-> j = 12%nat /\ ((profit_of r <? 0)%float = true
                          \/ (0 <? profit_of r)%float = true))).
Proof.
  intros Hr Hc. apply sheet_cell_at_Some in Hc.
  destruct Hc as [r' [v [Er [Ev ->]]]].
  assert (X : r' = r) by congruence. subst r'. clear Er.
  unfold style_cell. cbn [cell_fill cell_font].
  assert (L : ((4 + i =? List.length df + 3) = (S i =? List.length df))%nat).
  { destruct (Nat.eqb_spec (4 + i) (List.length df + 3)),
             (Nat.eqb_spec (S i) (List.length df)); try reflexivity; lia. }
  assert (J : ((1 + j =? 13) = (j =? 12))%nat).
  { destruct (Nat.eqb_spec (1 + j) 13), (Nat.eqb_spec j 12);
      try reflexivity; lia. }
  rewrite L, J.
  destruct (Nat.eqb_spec (S i) (List.length df)) as [E|E];
    destruct (Nat.eqb_spec j 12) as [Ej|Ej];
    destruct (profit_of r <? 0)%float;
    destruct (0 <? profit_of r)%float;
    cbn [bold];
    repeat split; intros; try tauto; try discriminate; try reflexivity;
    intuition discriminate.
Qed.

Lemma only_the_last_row_is_shaded_witness :
  exists c : sheet_cell,
    sheet_cell_at shop_report 2 12 = Some c
    /\ cell_fill c = Some "E7E6E6"%string /\ bold (cell_font c) = true.
Proof.
  eexists. split; [reflexivity|].
  destruct (only_the_last_row_is_shaded shop_report 2 12 _ _ eq_refl eq_refl)
    as [F [_ [B _]]].
  split; [apply F|apply B]; reflexivity.
Defined.

(** X15: in the sheet only net profit cells are coloured, red when the net
    profit of the row is below zero and green when it is above zero, and
    left as they are otherwise; the first three columns are aligned left
    and the others right; columns 6 to 13 carry the money format, column 14
    the percent format, and the two quantity columns none. *)
Theorem sheet_colours_and_formats (df : list report_row) (i j : nat)
    (r : report_row) (c : sheet_cell) :
  nth_error df i = Some r ->
  sheet_cell_at df i j = Some c ->
  (color (cell_font c) = Some "FF0000"%string
   <-> j = 12%nat /\ (profit_of r <? 0)%float = true)
  /\ (color (cell_font c) = Some "008000"%string
      <-> j = 12%nat /\ (0 <? profit_of r)%float = true)
  /\ (color (cell_font c) = None
      <-> j <> 12%nat
          \/ ((profit_of r <? 0)%float = false
              /\ (0 <? profit_of r)%float = false))
  /\ (cell_alignment c = HLeft <-> (j < 3)%nat)
  /\ (cell_format c = Money <-> (5 <= j <= 12)%nat)
  /\ (cell_format c = Percent <-> j = 13%nat).
Proof.
  intros Hr Hc. apply sheet_cell_at_Some in Hc.
  destruct Hc as [r' [v [Er [Ev ->]]]].
  assert (X : r' = r) by congruence. subst r'. clear Er.
  assert (B : (j < 14)%nat).
  { rewrite <- (row_values_length r). apply nth_error_Some. congruence. }
  unfold style_cell. cbn [cell_font cell_alignment cell_format].
  pose proof (ltb_exclusive (profit_of r)) as X.
  destruct (4 + i =? List.length df + 3)%nat;
    destruct (profit_of r <? 0)%float;
    destruct (0 <? profit_of r)%float;
    try (specialize (X eq_refl); discriminate X); clear X;
    do 14 (destruct j as [|j];
           [solve [cbn; repeat split; intros; try discriminate;
                   try reflexivity; try lia; try tauto;
                   exfalso; intuition (try lia; try discriminate)]|]);
    lia.
Qed.

Lemma sheet_colours_and_formats_witness :
  exists c : sheet_cell,
    sheet_cell_at shop_report 1 12 = Some c
    /\ color (cell_font c) = Some "FF0000"%string
    /\ cell_format c = Money.
Proof.
  eexists. split; [reflexivity|].
  destruct (sheet_colours_and_formats shop_report 1 12 _ _ eq_refl eq_refl)
    as [R [_ [_ [_ [M _]]]]].
  split; [apply R|apply M].
  - split; reflexivity.
  - lia.
Defined.

(** ** The files after a run, on a sample *)

Lemma main_keeps_the_files_witness :
  exists w' : world,
    main numpy ["convert_wb_report.py"; "january.xlsx"]%string bare_world w'
      (Ok tt)
    /\ fs w' "january.xlsx"%string = None.
Proof.
  assert (M : main numpy ["convert_wb_report.py"; "january.xlsx"]%string
                bare_world
                (print_to
                   (fst ((banner
                          >> get_input_file
                               ["convert_wb_report.py"; "january.xlsx"]%string)
                           bare_world))
                   [TextPath "[!] Ошибка: Файл не найден: " "january.xlsx"])
                (Ok tt)).
  { eapply main_not_found; reflexivity. }
  eexists. split; [exact M|].
  destruct (main_keeps_the_files _ _ _ _ _ "january.xlsx"%string M)
    as [E|[f [w1 [rep [_ [_ [_ [E _]]]]]]]]; exact E.
Defined.

(** ** The digest *)

(** What is not a finite number stays so when it is multiplied by 100. *)
Lemma not_finite_percent (x : float) :
  is_finite x = false -> is_finite (x * 100) = false.
Proof.
  unfold is_finite, is_nan, is_infinity.
  rewrite !eqb_spec, !abs_spec, mul_spec.
  change (Prim2SF infinity) with (S754_infinity false).
  change (Prim2SF 100) with (S754_finite false 7036874417766400 (-46)).
  destruct (Prim2SF x) as [s|s| |s m e]; try destruct s; try reflexivity;
    cbn; unfold SFeqb, SFcompare;
    rewrite ?Z.compare_refl, ?Pos.compare_cont_refl; cbn; discriminate.
Qed.

(** With nothing sold the return rate is an infinity or [nan]. *)
Lemma return_rate_unsold (returned : Z) :
  is_finite (return_rate returned 0) = false.
Proof.
  unfold return_rate. apply not_finite_percent, div_by_zero. reflexivity.
Qed.

(** X16: after [process_report] and [add_total_row], [print_summary] never
    raises: the frame it is given ends with the total row.  The digest
    counts the distinct articles of the input table, and its units sold and
    returned are the int64 sums of the quantity over all Sale rows and over
    all Return rows of the table; the return rate is their unguarded
    quotient as floats, times 100, which is not a finite number when the
    units sold are 0. *)
Theorem print_summary_reports_the_table (L : library) (df : table)
    (out : DataFrame) (w : world) :
  process_report L df (Ok out) ->
  let sold := sumZ (map tx_qty (select tx_doc_type SALE (rows df))) in
  let returned := sumZ (map tx_qty (select tx_doc_type RETURN (rows df))) in
  exists (report : list report_row) (lines : list msg),
    add_total_row L out = Ok report
    /\ print_summary report w = (print_to w lines, Ok tt)
    /\ In (TextInt "Артикулов обработано:    "
             (count (unique (map tx_article (rows df)))) "") lines
    /\ In (TextInt "Всего продано:           " sold " шт") lines
    /\ In (TextInt "Всего возвращено:        " returned " шт") lines
    /\ In (TextPercent "Процент возвратов:       "
             (return_rate returned sold)) lines
    /\ (sold = 0%Z -> is_finite (return_rate returned sold) = false).
Proof.
  intros H sold returned.
  destruct (process_report_Ok_inv df out H) as [data [E [_ [C [P _]]]]].
  destruct (process_report_frame df out H) as [_ N0].
  destruct (total_of_units L df out H) as [S R].
  fold sold in S. fold returned in R.
  exists (map Data (records out) ++ [Total (total_of L out)]).
  eexists. split; [apply add_total_row_Ok; assumption|].
  unfold print_summary, io_bind, lift. rewrite iloc_last_app, print_all_spec.
  cbn [row_int]. rewrite S, R.
  assert (N : (count (map Data (records out) ++ [Total (total_of L out)]) - 1)%Z
              = count (unique (map tx_article (rows df)))).
  { unfold count. rewrite length_app, length_map.
    rewrite <- (Permutation_length P), (summary_length df data E).
    cbn [List.length]. lia. }
  rewrite N.
  split; [reflexivity|].
  split; [cbn [In]; tauto|]. split; [cbn [In]; tauto|].
  split; [cbn [In]; tauto|]. split; [cbn [In]; tauto|].
  intros Z. rewrite Z. apply return_rate_unsold.
Qed.

Lemma print_summary_reports_the_table_witness :
  exists (report : list report_row) (lines : list msg),
    add_total_row numpy shop_frame = Ok report
    /\ print_summary report bare_world = (print_to bare_world lines, Ok tt)
    /\ In (TextInt "Артикулов обработано:    " 2 "") lines
    /\ In (TextInt "Всего продано:           " 10 " шт") lines
    /\ In (TextPercent "Процент возвратов:       " 30) lines.
Proof.
  destruct (print_summary_reports_the_table numpy shop_table shop_frame
              bare_world shop_outcome) as [report [lines [A [Pr [N [S [_ [Q _]]]]]]]].
  exists report, lines. repeat split; assumption.
Defined.
